(** * Aggregation functions of the public-safety dashboard

    Shallow embedding of the data functions of [app.py] and of
    [notebooks/app_analyse_crimesdelits.py]: [load_data],
    [get_national_statistics], [calculate_statistics] and
    [create_departmental_analysis], together with the pandas primitives
    they are written with.

    Conventions of the embedding.
    - A pandas [DataFrame] is a list of rows; where the row labels (the
      index) are observable, a row is paired with its label ([Frame]).
    - The sorting algorithm behind [sort_values] is a parameter
      ([SortKind]): the statements hold for every algorithm that sorts.
    - The column [Valeurs] holds incident counts: integers, modelled as
      [Z].  Quotients (percentage change, mean) are exact rationals [Q].
    - Strings are Latin-1 strings (the file is decoded with
      [encoding="latin-1"]), that is, lists of 8-bit characters, compared
      by code point as Python does. *)

From Stdlib Require Import ZArith QArith List Bool Ascii String Sorted Permutation Lia.
From stdpp Require Import base option list sorting gmap strings.

Local Open Scope string_scope.
Local Open Scope list_scope.
Local Open Scope Z_scope.

(** ** Keys of a [groupby]: decidable equality and a total order *)

Class KeyOrder (K : Type) := {
  keqb : K -> K -> bool;
  kleb : K -> K -> bool
}.

#[export] Instance string_key : KeyOrder string := {|
  keqb := String.eqb;
  kleb := String.leb
|}.

#[export] Instance Z_key : KeyOrder Z := {|
  keqb := Z.eqb;
  kleb := Z.leb
|}.

(** Several grouping columns: tuples compare lexicographically. *)
#[export] Instance pair_key {A B} `{KeyOrder A} `{KeyOrder B} : KeyOrder (A * B) := {|
  keqb := fun p q => keqb (fst p) (fst q) && keqb (snd p) (snd q);
  kleb := fun p q =>
    if keqb (fst p) (fst q) then kleb (snd p) (snd q) else kleb (fst p) (fst q)
|}.

(** ** pandas primitives *)

(** A frame whose index is observable: each row carries its label. *)
Definition Frame (A : Type) : Type := list (nat * A).

(** [DataFrame.values]-like projection: the rows without their labels. *)
Definition rows {A} (f : Frame A) : list A := map snd f.

(** [reset_index()]: a fresh [RangeIndex] 0, 1, ..., n-1. *)
Definition reset_index {A} (l : list A) : Frame A :=
  combine (seq 0 (length l)) l.

(** [Series.sum()]. *)
Definition sumZ (l : list Z) : Z := foldr Z.add 0 l.

(** [Series.isin(values)]. *)
Definition isin {K} `{KeyOrder K} (x : K) (values : list K) : bool :=
  existsb (keqb x) values.

Section GroupBy.
Context {R K : Type} `{KeyOrder K}.
Variable key : R -> K.
Variable val : R -> Z.

(** The distinct keys, in order of first appearance (factorisation of
    the grouping columns). *)
Fixpoint unique (ks : list K) : list K :=
  match ks with
  | [] => []
  | k :: t => k :: List.filter (fun k' => negb (keqb k k')) (unique t)
  end.

Fixpoint insert_key (k : K) (ks : list K) : list K :=
  match ks with
  | [] => [k]
  | k' :: t => if kleb k k' then k :: k' :: t else k' :: insert_key k t
  end.

(** [sort=True], the default of [groupby]: group keys in ascending order. *)
Definition sort_keys (ks : list K) : list K := foldr insert_key [] ks.

Definition group (k : K) (l : list R) : list R :=
  List.filter (fun r => keqb (key r) k) l.

(** [df.groupby(keys)[col].sum()]: one entry per distinct key, keys
    ascending, each with the sum of [col] over the rows of its group. *)
Definition groupby_sum (l : list R) : list (K * Z) :=
  map (fun k => (k, sumZ (map val (group k l)))) (sort_keys (unique (map key l))).
End GroupBy.

(** ** Sorting *)

(** [np.argsort(keys, kind=...)]: the positions of [keys], in ascending
    order of key.  The source sorts with the default [kind='quicksort'],
    which promises no order among equal keys: the algorithm is a
    parameter of the model. *)
Class SortKind := { argsort : list Z -> list nat }.

(** [take(indexer)]: the rows at the given positions.  (A position out
    of range, which no [argsort] returns, is skipped.) *)
Definition take {A} (indexer : list nat) (f : list A) : list A :=
  omap (fun i => f !! i) indexer.

(** pandas' [nargsort]: for a descending sort the keys and their
    positions are reversed, sorted ascending, and the result is
    reversed. *)
Definition nargsort {kind : SortKind} (ascending : bool) (keys : list Z) : list nat :=
  if ascending then argsort keys
  else reverse (map (fun p => (length keys - 1 - p)%nat) (argsort (reverse keys))).

(** [df.sort_values(col, ascending=...)]; rows keep their labels. *)
Definition sort_values {kind : SortKind} {A} (col : A -> Z) (ascending : bool)
    (f : Frame A) : Frame A :=
  take (nargsort ascending (map col (rows f))) f.

(** One sorting algorithm, to compute with: insertion sort, which keeps
    equal keys in the order they had. *)
Fixpoint insert_entry (x : nat * Z) (l : list (nat * Z)) : list (nat * Z) :=
  match l with
  | [] => [x]
  | y :: t => if snd x <=? snd y then x :: y :: t else y :: insert_entry x t
  end.

Definition insertion_argsort (keys : list Z) : list nat :=
  map fst (foldr insert_entry [] (reset_index keys)).

Definition insertion_kind : SortKind := {| argsort := insertion_argsort |}.


(** ** The loaded record set *)

(** One row of the dataset returned by [load_data] (year already an
    integer, value already numeric). *)
Record Record_ := mkRecord {
  Unite_temps : Z;
  Zone_geographique : string;
  Valeurs : Z;
  Indicateur : string;
  Code_dep : string
}.

(** A row of the national series: columns [Unite_temps], [Indicateur],
    [Valeurs]. *)
Record NatRow := mkNat {
  n_Unite_temps : Z;
  n_Indicateur : string;
  n_Valeurs : Z
}.

(** A row of the departmental summary: columns [Zone_geographique],
    [Valeurs]. *)
Record DeptRow := mkDept {
  d_Zone_geographique : string;
  d_Valeurs : Z
}.

(** ** Aggregation functions shared verbatim by both scripts *)

(** [get_national_statistics(df, selected_indicators, selected_years)]. *)
Definition get_national_statistics (df : list Record_)
    (selected_indicators : list string) (selected_years : list Z) : Frame NatRow :=
  let filtered_df :=
    List.filter (fun r => isin (Indicateur r) selected_indicators
                          && isin (Unite_temps r) selected_years) df in
  let national_data :=
    groupby_sum (fun r => (Unite_temps r, Indicateur r)) Valeurs filtered_df in
  reset_index (map (fun kv => mkNat (fst (fst kv)) (snd (fst kv)) (snd kv)) national_data).

(** [create_departmental_analysis(df, selected_indicator, selected_year)];
    [None] is Python's [None]. *)
Definition create_departmental_analysis {kind : SortKind} (df : list Record_)
    (selected_indicator : string) (selected_year : Z) : option (Frame DeptRow) :=
  let dept_data :=
    List.filter (fun r => String.eqb (Indicateur r) selected_indicator
                          && (Unite_temps r =? selected_year)) df in
  match dept_data with
  | [] => None
  | _ =>
    let dept_summary :=
      reset_index (map (fun kv => mkDept (fst kv) (snd kv))
                       (groupby_sum Zone_geographique Valeurs dept_data)) in
    Some (sort_values d_Valeurs false dept_summary)
  end.

(** ** Series primitives used by [calculate_statistics] *)

(** [s.iloc[0]] and [s.iloc[-1]]; [None] is the [IndexError] of an empty
    series. *)
Definition iloc_first {X} (s : list X) : option X := head s.
Definition iloc_last {X} (s : list X) : option X := last s.

(** [s.max()] and [s.min()]; [None] stands for the [NaN] of an empty
    series. *)
Definition series_max (s : list Z) : option Z :=
  match s with [] => None | x :: t => Some (foldl Z.max x t) end.
Definition series_min (s : list Z) : option Z :=
  match s with [] => None | x :: t => Some (foldl Z.min x t) end.

(** [s.mean()]. *)
Definition series_mean (s : list Z) : Q :=
  (inject_Z (sumZ s) / inject_Z (Z.of_nat (length s)))%Q.

(** Scan for the position of the best value: a later value replaces the
    current one only when it is strictly better, so the first occurrence
    wins on ties. *)
Fixpoint argbest (better : Z -> Z -> bool) (best : nat * Z) (s : list (nat * Z)) : nat :=
  match s with
  | [] => fst best
  | x :: t => if better (snd x) (snd best) then argbest better x t
              else argbest better best t
  end.

(** [s.idxmax()] and [s.idxmin()]: the label of the first occurrence of
    the maximum (minimum); [None] is the [ValueError] of an empty series. *)
Definition idxmax (s : list (nat * Z)) : option nat :=
  match s with [] => None | x :: t => Some (argbest Z.gtb x t) end.
Definition idxmin (s : list (nat * Z)) : option nat :=
  match s with [] => None | x :: t => Some (argbest Z.ltb x t) end.

(** What [df.loc[label, col]] evaluates to: the cell when exactly one row
    carries the label, the sub-series of all such rows when several do. *)
Inductive LocResult :=
  | Scalar (v : Z)
  | SubSeries (vs : list Z).

(** [df.loc[label, col]]; [None] is the [KeyError] of an absent label. *)
Definition loc {A} (f : Frame A) (label : nat) (col : A -> Z) : option LocResult :=
  match List.filter (fun x => Nat.eqb (fst x) label) f with
  | [] => None
  | [x] => Some (Scalar (col (snd x)))
  | xs => Some (SubSeries (map (fun x => col (snd x)) xs))
  end.

(** The column [col] of a frame as a labelled series. *)
Definition column {A} (col : A -> Z) (f : Frame A) : list (nat * Z) :=
  map (fun x => (fst x, col (snd x))) f.

(** ** [calculate_statistics] *)

(** The dictionary stored for one indicator. *)
Record IndicatorStats := mkStats {
  first_value : Z;
  last_value : Z;
  first_year : Z;
  last_year : Z;
  evolution_abs : Z;
  evolution_pct : Q;
  total_cases : Z;
  mean_annual : Q;
  max_value : Z;
  min_value : Z;
  max_year : LocResult;
  min_year : LocResult
}.

(** [indicator_data]: the rows of one indicator, sorted by year. *)
Definition indicator_rows {kind : SortKind} (national_data : Frame NatRow)
    (indicator : string) : Frame NatRow :=
  sort_values n_Unite_temps true
    (List.filter (fun x => String.eqb (n_Indicateur (snd x)) indicator) national_data).

(** The two scripts have the same text for [calculate_statistics] except
    for the entries ['max_year'] and ['min_year'], which are the
    parameters of this section. *)
Section CalculateStatistics.
Context {kind : SortKind}.
Variable year_of_max year_of_min : Frame NatRow -> option LocResult.

(** The body of the [if len(indicator_data) > 1:] branch.  [None] is a
    raised exception. *)
Definition indicator_stats (indicator_data : Frame NatRow) : option IndicatorStats :=
  let valeurs := map n_Valeurs (rows indicator_data) in
  let unite_temps := map n_Unite_temps (rows indicator_data) in
  first_value ← iloc_first valeurs;
  last_value ← iloc_last valeurs;
  first_year ← iloc_first unite_temps;
  last_year ← iloc_last unite_temps;
  let evolution_abs := last_value - first_value in
  let evolution_pct :=
    if negb (first_value =? 0)
    then (inject_Z (last_value - first_value) / inject_Z first_value * inject_Z 100)%Q
    else inject_Z 0 in
  max_value ← series_max valeurs;
  min_value ← series_min valeurs;
  max_year ← year_of_max indicator_data;
  min_year ← year_of_min indicator_data;
  Some {| first_value := first_value;
          last_value := last_value;
          first_year := first_year;
          last_year := last_year;
          evolution_abs := evolution_abs;
          evolution_pct := evolution_pct;
          total_cases := sumZ valeurs;
          mean_annual := series_mean valeurs;
          max_value := max_value;
          min_value := min_value;
          max_year := max_year;
          min_year := min_year |}.

(** One iteration of [for indicator in selected_indicators:]. *)
Definition calculate_statistics_step (national_data : Frame NatRow)
    (stats : gmap string IndicatorStats) (indicator : string)
    : option (gmap string IndicatorStats) :=
  let indicator_data := indicator_rows national_data indicator in
  if (1 <? length indicator_data)%nat then
    s ← indicator_stats indicator_data;
    Some (<[indicator := s]> stats)
  else Some stats.

Fixpoint calculate_statistics_loop (national_data : Frame NatRow)
    (stats : gmap string IndicatorStats) (selected_indicators : list string)
    : option (gmap string IndicatorStats) :=
  match selected_indicators with
  | [] => Some stats
  | indicator :: rest =>
    stats' ← calculate_statistics_step national_data stats indicator;
    calculate_statistics_loop national_data stats' rest
  end.

Definition calculate_statistics_with (national_data : Frame NatRow)
    (selected_indicators : list string) : option (gmap string IndicatorStats) :=
  calculate_statistics_loop national_data ∅ selected_indicators.
End CalculateStatistics.

(** ** The table returned by [pd.read_csv] *)

(** A cell of a parsed column: missing ([NaN]), a number (cell of a
    numeric column) or text (cell of an [object] column). *)
Inductive cell :=
  | NaN
  | Num (z : Z)
  | Str (s : string).

(** A parsed line.  [Zone_geographique] and [Indicateur] are label
    columns, read as text ([None] is a missing cell); the other three are
    typed by the parser, a column at a time: numbers when every cell of
    the column reads as a number, text otherwise.  A field whose column
    is not in the header is never read. *)
Record CsvRow := mkCsv {
  c_Unite_temps : cell;
  c_Zone_geographique : option string;
  c_Valeurs : cell;
  c_Indicateur : option string;
  c_Code_dep : cell
}.

Record CsvFrame := mkFrame {
  columns : list string;
  csv_rows : list CsvRow
}.

(** What [pd.read_csv(path, ...)] does. *)
Inductive ReadResult :=
  | FileNotFoundError
  | OtherError
  | Parsed (df : CsvFrame).

(** How a call of [load_data] ends: with a record set, or with [None]
    after one of the three [st.error] reports. *)
Inductive LoadError :=
  | DataNotFound
  | SchemaError (missing_cols : list string)
  | LoadException.

Inductive LoadOutcome (A : Type) :=
  | Loaded (df : list A)
  | Failed (e : LoadError).
Arguments Loaded {A} df.
Arguments Failed {A} e.

Definition is_digit (c : ascii) : bool :=
  (Ascii.leb "0" c && Ascii.leb c "9")%char.

Definition newline : ascii := ascii_of_nat 10.

(** [re.match(r'^[0-9]{2}$', s)]: two digits, then the end of the string
    or a line break that ends the string (what [$] matches). *)
Definition match_two_digits (s : string) : bool :=
  match s with
  | String a (String b rest) =>
    is_digit a && is_digit b &&
    match rest with
    | EmptyString => true
    | String c EmptyString => Ascii.eqb c newline
    | _ => false
    end
  | _ => false
  end.

(** [str.extract(r'^(\d{2,3})')]: the two or three leading digits (three
    when there are three); [None] is [NaN], no match.  In Latin-1 text
    [\d] is [0-9]. *)
Definition extract_dep (s : string) : option string :=
  match s with
  | String a (String b rest) =>
    if is_digit a && is_digit b then
      match rest with
      | String c _ =>
        if is_digit c then Some (String a (String b (String c EmptyString)))
        else Some (String a (String b EmptyString))
      | EmptyString => Some (String a (String b EmptyString))
      end
    else None
  | _ => None
  end.

Fixpoint repeat_zero (n : nat) (s : string) : string :=
  match n with
  | O => s
  | S n' => String "0" (repeat_zero n' s)
  end.

(** [Series.str.zfill(width)]: left-padding with ['0'] up to [width]
    (text of [width] characters or more is left as it is). *)
Definition zfill (width : nat) (s : string) : string :=
  repeat_zero (width - String.length s) s.

(** [Series.between(left, right)], both ends included, on strings. *)
Definition between (left right s : string) : bool :=
  String.leb left s && String.leb s right.

Definition isna (c : cell) : bool :=
  match c with NaN => true | _ => false end.

(** An [object] column has text cells; a frame without lines has only
    [object] columns.  The [.str] accessor exists on [object] columns
    only. *)
Definition is_object (col : CsvRow -> cell) (df : list CsvRow) : bool :=
  match df with
  | [] => true
  | _ => existsb (fun r => match col r with Str _ => true | _ => false end) df
  end.

(** The cells of the five selected columns of a line. *)
Record Selected := mkSel {
  s_Unite_temps : cell;
  s_Zone_geographique : option string;
  s_Valeurs : cell;
  s_Indicateur : option string;
  s_Code_dep : cell
}.

Definition isna_text (o : option string) : bool :=
  match o with None => true | Some _ => false end.

(** [df.dropna()] drops the lines that have a missing cell. *)
Definition has_na (r : Selected) : bool :=
  isna (s_Unite_temps r) || isna_text (s_Zone_geographique r)
  || isna (s_Valeurs r) || isna_text (s_Indicateur r)
  || isna (s_Code_dep r).

Definition dropna (df : list Selected) : list Selected :=
  List.filter (fun r => negb (has_na r)) df.

(** ** [app.py] *)

Module App.
Definition possible_paths : list string :=
  [ "data/serieschrono-datagouv.csv";
    "serieschrono-datagouv.csv";
    "../data/serieschrono-datagouv.csv" ].

(** The loop over [possible_paths]: [FileNotFoundError] is caught and
    the next path is tried; any other exception leaves the loop.  The
    result [FileNotFoundError] stands for [df is None] after the loop. *)
Fixpoint try_paths (read_csv : string -> ReadResult) (paths : list string)
    : ReadResult :=
  match paths with
  | [] => FileNotFoundError
  | path :: rest =>
    match read_csv path with
    | FileNotFoundError => try_paths read_csv rest
    | OtherError => OtherError
    | Parsed df => Parsed df
    end
  end.

Definition required_columns : list string :=
  ["Unite_temps"; "Zone_geographique"; "Valeurs"; "Indicateur"].

Definition has_column (df : CsvFrame) (col : string) : bool :=
  existsb (String.eqb col) (columns df).

Section Load.
(** [pd.to_numeric] on a text cell ([None]: not a number) and [int]
    on a text cell ([None]: [ValueError]). *)
Variable to_numeric : string -> option Z.
Variable to_int : string -> option Z.

(** [pd.to_numeric(..., errors='coerce')], cell by cell. *)
Definition coerce (c : cell) : cell :=
  match c with
  | Str s => match to_numeric s with Some z => Num z | None => NaN end
  | _ => c
  end.

(** [astype(int)] on one cell; [None] is the exception it raises. *)
Definition astype_int (c : cell) : option Z :=
  match c with
  | Num z => Some z
  | Str s => to_int s
  | NaN => None
  end.

(** The cell of the derived column [Code_dep]. *)
Definition derived_code (r : CsvRow) : cell :=
  match c_Zone_geographique r with
  | Some zone => match extract_dep zone with Some d => Str d | None => NaN end
  | None => NaN
  end.

Definition set_Valeurs (f : cell -> cell) (r : Selected) : Selected :=
  mkSel (s_Unite_temps r) (s_Zone_geographique r) (f (s_Valeurs r))
        (s_Indicateur r) (s_Code_dep r).

Definition set_Code_dep (f : cell -> cell) (r : Selected) : Selected :=
  mkSel (s_Unite_temps r) (s_Zone_geographique r) (s_Valeurs r)
        (s_Indicateur r) (f (s_Code_dep r)).

Definition code_matches (r : Selected) : bool :=
  match s_Code_dep r with Str s => match_two_digits s | _ => false end.

Definition code_between (r : Selected) : bool :=
  match s_Code_dep r with Str s => between "01" "95" s | _ => false end.

Definition zfill_cell (c : cell) : cell :=
  match c with Str s => Str (zfill 2 s) | _ => c end.

(** The line as a record of the loaded set, with the year cast by
    [astype(int)]; [None] is the exception of the cast (after the
    two [dropna] and the filters the other cells are present, a
    number for [Valeurs] and text for [Code_dep]). *)
Definition to_record (r : Selected) : option Record_ :=
  year ← astype_int (s_Unite_temps r);
  zone ← s_Zone_geographique r;
  value ← match s_Valeurs r with Num z => Some z | _ => None end;
  indicator ← s_Indicateur r;
  code ← match s_Code_dep r with Str s => Some s | _ => None end;
  Some (mkRecord year zone value indicator code).

(** The body of [load_data] once a file has been read. *)
Definition clean (df : CsvFrame) : LoadOutcome Record_ :=
  let missing_cols :=
    List.filter (fun col => negb (has_column df col)) required_columns in
  match missing_cols with
  | _ :: _ => Failed (SchemaError missing_cols)
  | [] =>
    let derive := negb (has_column df "Code_dep") in
    let code := if derive then derived_code else c_Code_dep in
    let code_is_object :=
      if derive then true else is_object c_Code_dep (csv_rows df) in
    let df1 :=
      map (fun r => mkSel (c_Unite_temps r) (c_Zone_geographique r)
                          (c_Valeurs r) (c_Indicateur r) (code r))
          (csv_rows df) in
    let df2 := dropna df1 in
    let df3 := dropna (map (set_Valeurs coerce) df2) in
    if negb code_is_object then Failed LoadException
    else
      let df4 := List.filter code_matches df3 in
      let df5 := map (set_Code_dep zfill_cell) df4 in
      let df6 := List.filter code_between df5 in
      match mapM to_record df6 with
      | Some records => Loaded records
      | None => Failed LoadException
      end
  end.

(** [load_data()]; the file system is the function [read_csv]. *)
Definition load_data (read_csv : string -> ReadResult) : LoadOutcome Record_ :=
  match try_paths read_csv possible_paths with
  | FileNotFoundError => Failed DataNotFound
  | OtherError => Failed LoadException
  | Parsed df => clean df
  end.
End Load.

(** ['max_year': indicator_data.loc[indicator_data['Valeurs'].idxmax(),
    'Unite_temps']]. *)
Definition max_year_of (indicator_data : Frame NatRow) : option LocResult :=
  label ← idxmax (column n_Valeurs indicator_data);
  loc indicator_data label n_Unite_temps.

Definition min_year_of (indicator_data : Frame NatRow) : option LocResult :=
  label ← idxmin (column n_Valeurs indicator_data);
  loc indicator_data label n_Unite_temps.

(** [calculate_statistics(national_data, selected_indicators)] of
    [app.py]. *)
Definition calculate_statistics {kind : SortKind} :=
  calculate_statistics_with max_year_of min_year_of.


End App.

(** ** [notebooks/app_analyse_crimesdelits.py] *)

Module Notebook.
(** A row of the set this [load_data] returns: the year is not cast
    and keeps the type the parser gave it. *)
Record Row := mkRow {
  nb_Unite_temps : cell;
  nb_Zone_geographique : string;
  nb_Valeurs : Z;
  nb_Indicateur : string;
  nb_Code_dep : string
}.

Definition selected_columns : list string :=
  ["Unite_temps"; "Zone_geographique"; "Valeurs"; "Indicateur"; "Code_dep"].

Section Load.
Variable to_numeric : string -> option Z.

Definition to_row (r : Selected) : option Row :=
  year ← match s_Unite_temps r with NaN => None | c => Some c end;
  zone ← s_Zone_geographique r;
  value ← match s_Valeurs r with Num z => Some z | _ => None end;
  indicator ← s_Indicateur r;
  code ← match s_Code_dep r with Str s => Some s | _ => None end;
  Some (mkRow year zone value indicator code).

(** The filter [df['Code_dep'].astype(str).str.zfill(2).between('01',
    '95')]; the column itself is left as it is. *)
Definition code_between (r : Selected) : bool :=
  match s_Code_dep r with Str s => between "01" "95" (zfill 2 s) | _ => false end.

Definition clean (df : CsvFrame) : LoadOutcome Row :=
  if negb (forallb (App.has_column df) selected_columns)
  then Failed LoadException
  else
    let df1 :=
      dropna (map (fun r => mkSel (c_Unite_temps r) (c_Zone_geographique r)
                                  (c_Valeurs r) (c_Indicateur r) (c_Code_dep r))
                  (csv_rows df)) in
    let df2 := dropna (map (App.set_Valeurs (App.coerce to_numeric)) df1) in
    if negb (is_object c_Code_dep (csv_rows df)) then Failed LoadException
    else
      let df3 := List.filter App.code_matches df2 in
      let df4 := List.filter code_between df3 in
      match mapM to_row df4 with
      | Some records => Loaded records
      | None => Failed LoadException
      end.

(** [load_data()]: one path, [FileNotFoundError] and the other
    exceptions caught apart. *)
Definition load_data (read_csv : string -> ReadResult) : LoadOutcome Row :=
  match read_csv "serieschrono-datagouv.csv" with
  | FileNotFoundError => Failed DataNotFound
  | OtherError => Failed LoadException
  | Parsed df => clean df
  end.
End Load.

(** [max_year = indicator_data[indicator_data['Valeurs'] ==
    max_value]['Unite_temps'].iloc[0]]. *)
Definition max_year_of (indicator_data : Frame NatRow) : option LocResult :=
  max_value ← series_max (map n_Valeurs (rows indicator_data));
  y ← iloc_first (map n_Unite_temps
         (List.filter (fun r => n_Valeurs r =? max_value) (rows indicator_data)));
  Some (Scalar y).

Definition min_year_of (indicator_data : Frame NatRow) : option LocResult :=
  min_value ← series_min (map n_Valeurs (rows indicator_data));
  y ← iloc_first (map n_Unite_temps
         (List.filter (fun r => n_Valeurs r =? min_value) (rows indicator_data)));
  Some (Scalar y).

(** [calculate_statistics(national_data, selected_indicators)] of
    [notebooks/app_analyse_crimesdelits.py]. *)
Definition calculate_statistics {kind : SortKind} :=
  calculate_statistics_with max_year_of min_year_of.
End Notebook.

(** ** Vocabulary of the statements *)

(** The rows of [df] that match a selection of indicators and years. *)
Definition matching (selected_indicators : list string) (selected_years : list Z)
    (df : list Record_) : list Record_ :=
  filter (fun r => Indicateur r ∈ selected_indicators /\ Unite_temps r ∈ selected_years) df.

(** The rows of [df] of one indicator and one year. *)
Definition matching_exactly (selected_indicator : string) (selected_year : Z)
    (df : list Record_) : list Record_ :=
  filter (fun r => Indicateur r = selected_indicator /\ Unite_temps r = selected_year) df.



(** ** Concrete inputs *)

Definition example_df : list Record_ :=
  [ mkRecord 2016 "01" 10 "Vol" "01";
    mkRecord 2017 "01" 15 "Vol" "01";
    mkRecord 2016 "02" 5 "Vol" "02" ].


(** A department code followed by a line break, as a quoted field that
    ends with a line break is parsed. *)
Definition code_12_newline : string :=
  String "1" (String "2" (String newline EmptyString)).

(** A file of two lines; the code ["2A"] makes [Code_dep] a text
    column. *)
Definition quoted_code_frame : CsvFrame :=
  mkFrame ["Unite_temps"; "Zone_geographique"; "Valeurs"; "Indicateur"; "Code_dep"]
    [ mkCsv (Num 2016) (Some "Ain") (Num 10) (Some "Vol") (Str code_12_newline);
      mkCsv (Num 2016) (Some "Corse-du-Sud") (Num 3) (Some "Vol") (Str "2A") ].

(** A file system with one file, at the path [p]. *)
Definition single_file (p : string) (df : CsvFrame) : string -> ReadResult :=
  fun path => if String.eqb path p then Parsed df else FileNotFoundError.



(** ** The rest of the two scripts: what [main] computes around the
    aggregation functions *)

(** [max(xs)] and [min(xs)] on a list; [None] is the [ValueError] of an
    empty list. *)
Definition py_max (xs : list Z) : option Z :=
  match xs with [] => None | x :: t => Some (foldl Z.max x t) end.
Definition py_min (xs : list Z) : option Z :=
  match xs with [] => None | x :: t => Some (foldl Z.min x t) end.





(** [DataFrame.head(n)]. *)
Definition df_head {A} (n : nat) (f : Frame A) : Frame A := firstn n f.




(** One [go.Scatter] trace of the comparison chart. *)
Record Trace := mkTrace {
  tr_x : list Z;
  tr_y : list Z;
  tr_name : string;
  tr_color : string;
  tr_secondary_y : bool
}.

Record ComparisonChart := mkChart {
  traces : list Trace;
  secondary_axis_titled : bool
}.

Section ComparisonChart.
(** [px.colors.qualitative.Set1], a constant of the plotting library,
    and the way a script names a trace. *)
Variable colors : list string.
Variable trace_name : string -> string.

(** The body of [for i, indicator in enumerate(selected_indicators)];
    [None] is the [ZeroDivisionError] of [i % len(colors)] on an empty
    palette. *)
Definition comparison_trace (national_data : Frame NatRow) (i : nat)
    (indicator : string) : option Trace :=
  let indicator_data :=
    List.filter (fun n => String.eqb (n_Indicateur n) indicator) (rows national_data) in
  match colors with
  | [] => None
  | _ =>
    color ← colors !! (i mod length colors)%nat;
    Some (mkTrace (map n_Unite_temps indicator_data) (map n_Valeurs indicator_data)
            (trace_name indicator) color (0 <? i)%nat)
  end.

Fixpoint comparison_traces (national_data : Frame NatRow) (i : nat)
    (selected_indicators : list string) : option (list Trace) :=
  match selected_indicators with
  | [] => Some []
  | indicator :: rest =>
    t ← comparison_trace national_data i indicator;
    ts ← comparison_traces national_data (S i) rest;
    Some (t :: ts)
  end.

(** [create_comparison_chart(national_data, selected_indicators)]. *)
Definition create_comparison_chart_with (national_data : Frame NatRow)
    (selected_indicators : list string) : option ComparisonChart :=
  ts ← comparison_traces national_data 0 selected_indicators;
  Some (mkChart ts (1 <? length selected_indicators)%nat).
End ComparisonChart.

Definition Notebook_create_comparison_chart (colors : list string) :=
  create_comparison_chart_with colors (fun indicator => indicator).

(** [list(range(int(a), int(b) + 1))], the years of a slider range. *)
Definition expand_years (a b : Z) : list Z := seqZ a (b + 1 - a).

(** What the widgets of the sidebar return before the user touches
    them: the first three indicators in sorted order (all of them with
    "Tout sélectionner"), and the whole range of years of the data.
    [None] is the [ValueError] of [min(available_years)] on a record set
    without rows. *)
Definition default_selection (select_all : bool) (df : list Record_)
    : option (list string * list Z) :=
  let available_indicators := sort_keys (unique (map Indicateur df)) in
  let default_indicators :=
    if select_all then available_indicators else firstn 3 available_indicators in
  let available_years := sort_keys (unique (map Unite_temps df)) in
  lo ← py_min available_years;
  hi ← py_max available_years;
  Some (default_indicators, expand_years lo hi).

(** ** [notebooks/python export_structure.py] *)

Module ExportStructure.
(** What [Path.iterdir] finds in a directory: regular files,
    directories with their own entries, and entries that are neither (a
    broken link, a socket).  Names and the text written are UTF-8 byte
    strings: comparing two of them byte by byte is comparing the texts
    by code point, and one occurs in another exactly when its text
    does. *)
#[local] Unset Elimination Schemes.
Inductive Entry :=
  | File (name : string)
  | Dir (name : string) (entries : list Entry)
  | Special (name : string).
#[local] Set Elimination Schemes.

Definition name (item : Entry) : string :=
  match item with File n | Dir n _ | Special n => n end.

Definition is_file (item : Entry) : bool :=
  match item with File _ => true | _ => false end.

Definition is_dir (item : Entry) : bool :=
  match item with Dir _ _ => true | _ => false end.

(** [path.iterdir()], called on directories only. *)
Definition iterdir (path : Entry) : list Entry :=
  match path with Dir _ entries => entries | _ => [] end.

(** [ign in s]. *)
Fixpoint contains (ign s : string) : bool :=
  String.prefix ign s
  || match s with
     | EmptyString => false
     | String _ rest => contains ign rest
     end.

(** [any(ign in item.name for ign in ignore) or
    item.name.startswith('.')]. *)
Definition ignored_name (ignore : list string) (n : string) : bool :=
  existsb (fun ign => contains ign n) ignore || String.prefix "." n.

Definition ignored (ignore : list string) (item : Entry) : bool :=
  ignored_name ignore (name item).

(** The order of the keys [(p.is_file(), p.name)]: [False] before
    [True], then by name. *)
Definition key_leb (a b : Entry) : bool :=
  if Bool.eqb (is_file a) (is_file b) then String.leb (name a) (name b)
  else negb (is_file a).

(** [sorted(..., key=...)], which is stable: an entry is put before the
    first entry, among those that followed it, whose key is not
    smaller. *)
Fixpoint insert_item (x : Entry) (l : list Entry) : list Entry :=
  match l with
  | [] => [x]
  | y :: t => if key_leb x y then x :: y :: t else y :: insert_item x t
  end.

Definition sorted (l : list Entry) : list Entry := foldr insert_item [] l.

Definition enumerate {A} (l : list A) : list (nat * A) :=
  combine (seq 0 (length l)) l.

Definition tee : string := "├── ".
Definition corner : string := "└── ".
Definition bar : string := "│   ".
Definition blank : string := "    ".

(** One [f.write(f"{prefix}{connector}{item.name}\n")]. *)
Record Line := mkLine {
  l_prefix : string;
  l_connector : string;
  l_name : string
}.

(** [walk(path, prefix, depth)].  [levels] is [max_depth + 1 - depth],
    the number of levels still to be written: the guard [depth >
    max_depth] is [levels = 0], and the call for a subdirectory, at
    [depth + 1], has one level less. *)
Fixpoint walk (levels : nat) (ignore : list string) (path : Entry) (prefix : string)
    : list Line :=
  match levels with
  | O => []
  | S levels' =>
    let items := sorted (iterdir path) in
    flat_map
      (fun '(i, item) =>
         if ignored ignore item then []
         else
           let more := (i <? length items - 1)%nat in
           mkLine prefix (if more then tee else corner) (name item)
           :: (if is_dir item
               then walk levels' ignore item
                      (String.append prefix (if more then bar else blank))
               else []))
      (enumerate items)
  end.

Record Output := mkOutput {
  header : string;
  lines : list Line
}.

(** [export_structure(root_path, output_file, max_depth, ignore)],
    where [root] is what is found at [root_path] once the output file
    has been opened; [None] is the exception of [iterdir] on a root
    that is not a directory. *)
Definition export_structure (root : Entry) (max_depth : Z) (ignore : list string)
    : option Output :=
  let title :=
    String.append "# Structure du projet: "
      (String.append (name root) (String newline (String newline EmptyString))) in
  if 0 >? max_depth then Some (mkOutput title [])
  else if is_dir root
       then Some (mkOutput title (walk (Z.to_nat (max_depth + 1)) ignore root ""))
       else None.

(** The default values of the last two parameters. *)
Definition default_max_depth : Z := 5.
Definition default_ignore : list string := ["__pycache__"; ".git"; "venv"].

(** The text of a line, and of the whole file. *)
Definition line_text (l : Line) : string :=
  String.append (l_prefix l)
    (String.append (l_connector l)
       (String.append (l_name l) (String newline EmptyString))).

Definition text (o : Output) : string :=
  String.append (header o) (foldr String.append "" (map line_text (lines o))).

(** An entry that [walk] reaches from [path], [depth] directories
    below it: neither it nor a directory on the way is ignored. *)
Inductive Listed (ignore : list string) : Entry -> nat -> Entry -> Prop :=
  | Listed_here (path item : Entry) :
      In item (iterdir path) -> ignored ignore item = false ->
      Listed ignore path 0 item
  | Listed_below (path d : Entry) (depth : nat) (item : Entry) :
      In d (iterdir path) -> ignored ignore d = false -> is_dir d = true ->
      Listed ignore d depth item ->
      Listed ignore path (S depth) item.

(** The indentation added at [depth] levels below a prefix. *)
Definition indented (prefix : string) (depth : nat) (s : string) : Prop :=
  exists pieces : list string,
    length pieces = depth /\
    List.Forall (fun p => p = bar \/ p = blank) pieces /\
    s = String.append prefix (foldr String.append "" pieces).

(** The line of the entry at position [i] of the sorted entries
    [items] of a directory. *)
Definition level_line (items : list Entry) (prefix : string) (i : nat) (item : Entry)
    : Line :=
  mkLine prefix (if (i <? length items - 1)%nat then tee else corner) (name item).

(** The order of the keys, as a relation. *)
Definition key_le (a b : Entry) : Prop :=
  (is_file a = false /\ is_file b = true) \/
  (is_file a = is_file b /\ String.leb (name a) (name b) = true).

(** A small project; the last entry in the order of the keys,
    ["zz_venv_notes.txt"], is ignored. *)
Definition project : Entry :=
  Dir "projet"
    [ File "app.py";
      File ".gitignore";
      Dir "venv" [File "pyvenv.cfg"];
      Dir "src" [File "b.py"; Dir "__pycache__" [File "b.pyc"]; File "a.py"];
      File "zz_venv_notes.txt";
      Dir "data" [] ].
End ExportStructure.

(** ** More vocabulary *)

Definition national_row (kv : Z * string * Z) : NatRow :=
  mkNat (fst (fst kv)) (snd (fst kv)) (snd kv).


Definition yearly_total (selected_indicators : list string)
    (selected_years : list Z) (df : list Record_) (indicator : string) (year : Z) : Z :=
  sumZ (map Valeurs
          (filter (fun r => Indicateur r = indicator /\ Unite_temps r = year)
             (matching selected_indicators selected_years df))).


Definition zones_of (selected_indicator : string) (selected_year : Z)
    (df : list Record_) : list string :=
  remove_dups (map Zone_geographique
                 (matching_exactly selected_indicator selected_year df)).

(** ** More concrete inputs *)



(** Seventeen zones with one row each, of values 1 to 17. *)
Definition many_zones_df : list Record_ :=
  zip_with (fun zone v => mkRecord 2016 zone v "Vol" zone)
    ["01"; "02"; "03"; "04"; "05"; "06"; "07"; "08"; "09"; "10"; "11"; "12"; "13";
     "14"; "15"; "16"; "17"]
    (seqZ 1 17).



(** A file without the column [Code_dep]: the zone names begin with
    the department number; "971" is overseas and ["2A"] is Corsica. *)
Definition zone_prefixed_frame : CsvFrame :=
  mkFrame ["Unite_temps"; "Zone_geographique"; "Valeurs"; "Indicateur"]
    [ mkCsv (Num 2016) (Some "01-Ain") (Num 10) (Some "Vol") NaN;
      mkCsv (Num 2016) (Some "971-Guadeloupe") (Num 4) (Some "Vol") NaN;
      mkCsv (Num 2017) (Some "75-Paris") (Num 12) (Some "Vol") NaN;
      mkCsv (Num 2016) (Some "2A-Corse-du-Sud") (Num 3) (Some "Vol") NaN ].

(** A file whose codes are all numbers: the parser types the column
    [Code_dep] as numbers. *)
Definition numeric_code_frame : CsvFrame :=
  mkFrame ["Unite_temps"; "Zone_geographique"; "Valeurs"; "Indicateur"; "Code_dep"]
    [ mkCsv (Num 2016) (Some "Ain") (Num 10) (Some "Vol") (Num 1);
      mkCsv (Num 2016) (Some "Paris") (Num 12) (Some "Vol") (Num 75) ].

(** A file with a text column [Code_dep]; the year of one line is not
    a number, which makes [Unite_temps] a text column too. *)
Definition text_year_frame : CsvFrame :=
  mkFrame ["Unite_temps"; "Zone_geographique"; "Valeurs"; "Indicateur"; "Code_dep"]
    [ mkCsv (Str "2016") (Some "Ain") (Num 10) (Some "Vol") (Str "01");
      mkCsv (Str "n.d.") (Some "Corse-du-Sud") (Num 3) (Some "Vol") (Str "2A");
      mkCsv (Str "2017") (Some "Paris") (Num 12) (Some "Vol") (Str "75");
      mkCsv (Str "2017") (Some "Guadeloupe") (Num 4) (Some "Vol") (Str "971") ].

(** [int] and [pd.to_numeric] on the texts of the examples. *)
Definition read_number (s : string) : option Z :=
  if String.eqb s "2016" then Some 2016
  else if String.eqb s "2017" then Some 2017
  else None.

(** A file system where the first candidate path cannot be read and
    the second holds a file. *)
Definition unreadable_first (df : CsvFrame) : string -> ReadResult :=
  fun path =>
    if String.eqb path "data/serieschrono-datagouv.csv" then OtherError
    else if String.eqb path "serieschrono-datagouv.csv" then Parsed df
    else FileNotFoundError.

(** A row loaded by the notebook script with its year cast to an
    integer as [astype(int)] does; [None] is the exception of the
    cast. *)
Definition cast_year (to_int : string -> option Z) (n : Notebook.Row)
    : option Record_ :=
  year ← App.astype_int to_int (Notebook.nb_Unite_temps n);
  Some (mkRecord year (Notebook.nb_Zone_geographique n) (Notebook.nb_Valeurs n)
          (Notebook.nb_Indicateur n) (Notebook.nb_Code_dep n)).
(** * Properties of the primitives *)

(** The laws of a key order: [keqb] decides equality, [kleb] is a total
    order. *)
Class KeyOrderLaws (K : Type) `{KeyOrder K} := {
  keqb_eq : forall a b : K, keqb a b = true <-> a = b;
  kleb_total : forall a b : K, kleb a b = true \/ kleb b a = true;
  kleb_trans : forall a b c : K, kleb a b = true -> kleb b c = true -> kleb a c = true;
  kleb_antisym : forall a b : K, kleb a b = true -> kleb b a = true -> a = b
}.

Lemma string_leb_trans (a b c : string) :
  String.leb a b = true -> String.leb b c = true -> String.leb a c = true.
Proof.
  intros H1 H2.
  assert (T : String.le a c).
  { transitivity b; unfold String.le; [rewrite H1 | rewrite H2]; exact I. }
  unfold String.le in T. destruct (String.leb a c); [reflexivity | destruct T].
Qed.

#[export] Instance string_key_laws : KeyOrderLaws string.
Proof.
  split; simpl.
  - apply String.eqb_eq.
  - apply String.leb_total.
  - apply string_leb_trans.
  - apply String.leb_antisym.
Qed.

#[export] Instance Z_key_laws : KeyOrderLaws Z.
Proof. split; simpl; intros; lia. Qed.

#[export] Instance pair_key_laws {A B} `{KeyOrderLaws A} `{KeyOrderLaws B} :
  KeyOrderLaws (A * B).
Proof.
  assert (RA : forall a : A, keqb a a = true) by (intros a; apply keqb_eq; reflexivity).
  split.
  - intros [a b] [c d]; simpl.
    rewrite andb_true_iff, !keqb_eq. split; [intros [-> ->]; reflexivity | intros [= -> ->]; auto].
  - intros [a b] [c d]; simpl.
    destruct (keqb a c) eqn:E.
    + apply keqb_eq in E; subst c. rewrite RA. apply kleb_total.
    + destruct (keqb c a) eqn:E'; [| apply kleb_total].
      apply keqb_eq in E'; subst c. rewrite RA in E. discriminate.
  - intros [a b] [c d] [e f]; simpl.
    destruct (keqb a c) eqn:E1.
    + apply keqb_eq in E1; subst c. destruct (keqb a e) eqn:E2; [apply kleb_trans | auto].
    + destruct (keqb c e) eqn:E2.
      * apply keqb_eq in E2; subst e. rewrite E1. auto.
      * intros H1' H2'. destruct (keqb a e) eqn:E3.
        -- apply keqb_eq in E3; subst e.
           assert (a = c) by (apply kleb_antisym; assumption). subst c.
           rewrite RA in E1. discriminate.
        -- eapply kleb_trans; eassumption.
  - intros [a b] [c d]; simpl.
    destruct (keqb a c) eqn:E1.
    + apply keqb_eq in E1; subst c. rewrite RA.
      intros H1' H2'. f_equal. apply kleb_antisym; assumption.
    + destruct (keqb c a) eqn:E2.
      * apply keqb_eq in E2; subst c. rewrite RA in E1. discriminate.
      * intros H1' H2'. assert (a = c) by (apply kleb_antisym; assumption). subst c.
        rewrite RA in E1. discriminate.
Qed.

Lemma keqb_refl {K} `{KeyOrderLaws K} (k : K) : keqb k k = true.
Proof. apply keqb_eq. reflexivity. Qed.

Lemma keqb_neq {K} `{KeyOrderLaws K} (a b : K) : keqb a b = false <-> a <> b.
Proof.
  split.
  - intros E ->. rewrite keqb_refl in E. discriminate.
  - intros N. destruct (keqb a b) eqn:E; [| reflexivity].
    apply keqb_eq in E. contradiction.
Qed.

Lemma isin_In {K} `{KeyOrderLaws K} (x : K) (l : list K) : isin x l = true <-> In x l.
Proof.
  unfold isin. rewrite existsb_exists. split.
  - intros (y & Hy & E). apply keqb_eq in E. subst y. exact Hy.
  - intros Hx. exists x. split; [exact Hx | apply keqb_refl].
Qed.


Lemma rows_reset_index {A} (l : list A) : rows (reset_index l) = l.
Proof.
  unfold rows, reset_index. generalize 0%nat.
  induction l as [| a l IH]; intros n; simpl; [reflexivity | f_equal; apply IH].
Qed.

Lemma labels_reset_index {A} (l : list A) :
  map fst (reset_index l) = seq 0 (length l).
Proof.
  unfold reset_index. generalize 0%nat.
  induction l as [| a l IH]; intros n; simpl; [reflexivity | f_equal; apply IH].
Qed.

Section GroupByFacts.
Context {R K : Type} `{KeyOrderLaws K}.
Variable key : R -> K.
Variable val : R -> Z.

Lemma In_unique (k : K) (ks : list K) : In k (unique ks) <-> In k ks.
Proof.
  induction ks as [| a ks IH]; simpl; [tauto |].
  rewrite filter_In, IH, negb_true_iff, keqb_neq.
  destruct (keqb a k) eqn:E.
  - apply keqb_eq in E. tauto.
  - apply keqb_neq in E. tauto.
Qed.

Lemma NoDup_unique (ks : list K) : List.NoDup (unique ks).
Proof.
  induction ks as [| a ks IH]; simpl; constructor.
  - rewrite filter_In, negb_true_iff, keqb_neq. tauto.
  - apply List.NoDup_filter. exact IH.
Qed.

Lemma insert_key_Permutation (k : K) (ks : list K) :
  Permutation (insert_key k ks) (k :: ks).
Proof.
  induction ks as [| a ks IH]; simpl; [reflexivity |].
  destruct (kleb k a); [reflexivity |].
  rewrite IH. apply perm_swap.
Qed.

Lemma sort_keys_Permutation (ks : list K) : Permutation (sort_keys ks) ks.
Proof.
  induction ks as [| a ks IH]; simpl; [reflexivity |].
  rewrite insert_key_Permutation. constructor. exact IH.
Qed.

Lemma insert_key_sorted (k : K) (ks : list K) :
  StronglySorted (fun a b => kleb a b = true) ks ->
  StronglySorted (fun a b => kleb a b = true) (insert_key k ks).
Proof.
  induction 1 as [| a ks Hs IH Ha]; simpl.
  - repeat constructor.
  - destruct (kleb k a) eqn:E.
    + constructor; [constructor; assumption |].
      constructor; [exact E |].
      eapply List.Forall_impl; [| exact Ha]. intros b Hb. eapply kleb_trans; eassumption.
    + constructor; [exact IH |].
      eapply Permutation_Forall; [symmetry; apply insert_key_Permutation |].
      constructor; [| exact Ha].
      destruct (kleb_total k a) as [T | T]; [congruence | exact T].
Qed.

Lemma sort_keys_sorted (ks : list K) :
  StronglySorted (fun a b => kleb a b = true) (sort_keys ks).
Proof.
  induction ks as [| a ks IH]; simpl; [constructor | apply insert_key_sorted, IH].
Qed.

Lemma In_sort_keys (k : K) (ks : list K) : In k (sort_keys ks) <-> In k ks.
Proof.
  split; apply Permutation_in; [| symmetry]; apply sort_keys_Permutation.
Qed.

Lemma NoDup_sort_keys (ks : list K) : List.NoDup ks -> List.NoDup (sort_keys ks).
Proof.
  intros Hn. eapply Permutation_NoDup; [symmetry; apply sort_keys_Permutation | exact Hn].
Qed.

(** The group keys: every key of the input once, ascending. *)
Lemma groupby_sum_keys (l : list R) :
  map fst (groupby_sum key val l) = sort_keys (unique (map key l)).
Proof. unfold groupby_sum. rewrite map_map. simpl. apply map_id. Qed.

Lemma NoDup_groupby_sum_keys (l : list R) :
  List.NoDup (map fst (groupby_sum key val l)).
Proof. rewrite groupby_sum_keys. apply NoDup_sort_keys, NoDup_unique. Qed.

Lemma In_groupby_sum_keys (k : K) (l : list R) :
  In k (map fst (groupby_sum key val l)) <-> In k (map key l).
Proof. rewrite groupby_sum_keys, In_sort_keys, In_unique. reflexivity. Qed.

Lemma In_groupby_sum (k : K) (v : Z) (l : list R) :
  In (k, v) (groupby_sum key val l) <->
  In k (map key l) /\ v = sumZ (map val (group key k l)).
Proof.
  unfold groupby_sum. rewrite in_map_iff. split.
  - intros (k' & [= <- <-] & Hk). rewrite In_sort_keys, In_unique in Hk. auto.
  - intros [Hk ->]. exists k. split; [reflexivity |].
    rewrite In_sort_keys, In_unique. exact Hk.
Qed.

Lemma groupby_sum_nil (l : list R) : groupby_sum key val l = [] <-> l = [].
Proof.
  split; [| intros ->; reflexivity].
  intros E. destruct l as [| r l]; [reflexivity | exfalso].
  assert (Hin : In (key r) (map fst (groupby_sum key val (r :: l)))).
  { apply In_groupby_sum_keys. left. reflexivity. }
  rewrite E in Hin. exact Hin.
Qed.



End GroupByFacts.

(** ** Sorting *)

(** What every sorting algorithm guarantees: the result lists each
    position once, in ascending order of key. *)
Class SortKindLaws (kind : SortKind) : Prop := {
  argsort_Permutation :
    forall keys : list Z, Permutation (argsort keys) (seq 0 (length keys));
  argsort_sorted :
    forall keys : list Z,
      StronglySorted
        (fun i j => forall x y, keys !! i = Some x -> keys !! j = Some y -> x <= y)
        (argsort keys)
}.

Lemma take_seq_app {A} (pre f : list A) :
  take (seq (length pre) (length f)) (pre ++ f) = f.
Proof.
  unfold take. revert pre. induction f as [| x f IH]; intros pre; [reflexivity |].
  cbn [length seq omap list_omap].
  rewrite list_lookup_middle by reflexivity. f_equal.
  specialize (IH (pre ++ [x])).
  rewrite <- app_assoc, length_app, Nat.add_1_r in IH. exact IH.
Qed.

Lemma take_seq {A} (f : list A) : take (seq 0 (length f)) f = f.
Proof. apply (take_seq_app [] f). Qed.

Lemma take_Permutation {A} (indexer : list nat) (f : list A) :
  Permutation indexer (seq 0 (length f)) -> Permutation (take indexer f) f.
Proof.
  intros Hp. unfold take. rewrite Hp. fold (take (seq 0 (length f)) f).
  rewrite take_seq. reflexivity.
Qed.

Lemma take_sorted {A} (Rel : relation A) (indexer : list nat) (f : list A) :
  StronglySorted
    (fun i j => forall a b, f !! i = Some a -> f !! j = Some b -> Rel a b) indexer ->
  StronglySorted Rel (take indexer f).
Proof.
  unfold take. induction 1 as [| i indexer Hs IH Hi]; [constructor |].
  cbn [omap list_omap]. destruct (f !! i) as [a |] eqn:Ea; [| exact IH].
  constructor; [exact IH |].
  clear IH Hs. induction Hi as [| j indexer Hj Hi IH]; [constructor |].
  cbn [omap list_omap]. destruct (f !! j) as [b |] eqn:Eb; [| exact IH].
  constructor; [apply Hj; reflexivity | exact IH].
Qed.

Lemma mirror_Permutation (n : nat) :
  Permutation (map (fun p => (n - 1 - p)%nat) (seq 0 n)) (seq 0 n).
Proof.
  apply Permutation.NoDup_Permutation.
  - apply NoDup_ListNoDup. apply NoDup_fmap_2_strong.
    + intros x y Hx Hy. apply list_elem_of_In, in_seq in Hx, Hy. lia.
    + apply NoDup_ListNoDup, List.seq_NoDup.
  - apply List.seq_NoDup.
  - intros x. rewrite in_map_iff. split.
    + intros (p & <- & Hp). apply in_seq in Hp. apply in_seq. lia.
    + intros Hx. apply in_seq in Hx. exists (n - 1 - x)%nat.
      split; [lia | apply in_seq; lia].
Qed.

Lemma StronglySorted_impl {X} (R1 R2 : relation X) (l : list X) :
  (forall x y, R1 x y -> R2 x y) -> StronglySorted R1 l -> StronglySorted R2 l.
Proof.
  intros Himp. induction 1 as [| a l Hs IH Ha]; constructor; [exact IH |].
  eapply List.Forall_impl; [| exact Ha]. apply Himp.
Qed.

Lemma StronglySorted_reverse {X} (Rel : relation X) (l : list X) :
  StronglySorted Rel l -> StronglySorted (flip Rel) (reverse l).
Proof.
  induction 1 as [| a l Hs IH Ha]; [constructor |].
  rewrite reverse_cons.
  apply StronglySorted_app_2; [| exact IH | repeat constructor].
  intros x y Hx Hy. apply list_elem_of_singleton in Hy. subst y.
  rewrite elem_of_reverse in Hx. apply list_elem_of_In in Hx.
  rewrite List.Forall_forall in Ha. apply Ha, Hx.
Qed.

Lemma StronglySorted_within {X} (Rel : relation X) (P : X -> Prop) (l : list X) :
  StronglySorted Rel l -> List.Forall P l ->
  StronglySorted (fun x y => Rel x y /\ P x /\ P y) l.
Proof.
  induction 1 as [| a l Hs IH Ha]; intros HP; [constructor |].
  inversion HP as [| ? ? Pa Pl]; subst.
  constructor; [apply IH, Pl |].
  rewrite List.Forall_forall in *. intros y Hy. auto.
Qed.

Section SortValuesFacts.
Context {kind : SortKind} {laws : SortKindLaws kind}.

Lemma argsort_in_range (keys : list Z) :
  List.Forall (fun p => (p < length keys)%nat) (argsort keys).
Proof.
  apply List.Forall_forall. intros p Hp.
  apply (Permutation_in _ (argsort_Permutation keys)) in Hp.
  apply in_seq in Hp. lia.
Qed.

Lemma nargsort_Permutation (ascending : bool) (keys : list Z) :
  Permutation (nargsort ascending keys) (seq 0 (length keys)).
Proof.
  unfold nargsort. destruct ascending; [apply argsort_Permutation |].
  rewrite reverse_Permutation, (argsort_Permutation (reverse keys)), length_reverse.
  apply mirror_Permutation.
Qed.

Lemma nargsort_sorted (ascending : bool) (keys : list Z) :
  StronglySorted
    (fun i j => forall x y, keys !! i = Some x -> keys !! j = Some y ->
                if ascending then x <= y else y <= x)
    (nargsort ascending keys).
Proof.
  unfold nargsort. destruct ascending; [apply argsort_sorted |].
  pose proof (StronglySorted_within _ _ _ (argsort_sorted (reverse keys))
                (argsort_in_range (reverse keys))) as Hs.
  apply (StronglySorted_fmap (fun p => (length keys - 1 - p)%nat) _
           (fun i j => forall x y, keys !! i = Some x -> keys !! j = Some y -> x <= y))
    in Hs.
  - apply StronglySorted_reverse in Hs.
    eapply StronglySorted_impl; [| exact Hs].
    intros i j Hij x y Hx Hy. apply (Hij y x Hy Hx).
  - intros p q (Hpq & Hp & Hq) x y Hx Hy. rewrite length_reverse in Hp, Hq.
    apply Hpq.
    + rewrite reverse_lookup by exact Hp.
      replace (length keys - S p)%nat with (length keys - 1 - p)%nat by lia. exact Hx.
    + rewrite reverse_lookup by exact Hq.
      replace (length keys - S q)%nat with (length keys - 1 - q)%nat by lia. exact Hy.
Qed.

(** [sort_values] rearranges the rows, nothing else. *)
Lemma sort_values_Permutation {A} (col : A -> Z) (ascending : bool) (f : Frame A) :
  Permutation (sort_values col ascending f) f.
Proof.
  unfold sort_values. apply take_Permutation.
  rewrite nargsort_Permutation. unfold rows. rewrite !length_map. reflexivity.
Qed.

(** [sort_values] puts the rows in the order of the sort column. *)
Lemma sort_values_sorted {A} (col : A -> Z) (ascending : bool) (f : Frame A) :
  StronglySorted
    (fun a b => if ascending then col (snd a) <= col (snd b)
                else col (snd b) <= col (snd a))
    (sort_values col ascending f).
Proof.
  unfold sort_values. apply take_sorted.
  eapply StronglySorted_impl;
    [| apply (nargsort_sorted ascending (map col (rows f)))].
  intros i j Hij a b Ha Hb. apply Hij.
  - unfold rows. rewrite !list_lookup_fmap, Ha. reflexivity.
  - unfold rows. rewrite !list_lookup_fmap, Hb. reflexivity.
Qed.
End SortValuesFacts.

(** Insertion sort is a sorting algorithm. *)
Lemma insert_entry_Permutation (x : nat * Z) (l : list (nat * Z)) :
  Permutation (insert_entry x l) (x :: l).
Proof.
  induction l as [| y l IH]; simpl; [reflexivity |].
  destruct (snd x <=? snd y); [reflexivity |].
  rewrite IH. apply perm_swap.
Qed.

Lemma insertion_Permutation (l : list (nat * Z)) :
  Permutation (foldr insert_entry [] l) l.
Proof.
  induction l as [| x l IH]; simpl; [reflexivity |].
  rewrite insert_entry_Permutation. constructor. exact IH.
Qed.

Lemma insertion_sorted (l : list (nat * Z)) :
  StronglySorted (fun a b => snd a <= snd b) (foldr insert_entry [] l).
Proof.
  induction l as [| x l IH]; simpl; [constructor |].
  revert IH. generalize (foldr insert_entry [] l). clear l. intros l.
  induction 1 as [| y l Hs IH Hy]; simpl.
  - repeat constructor.
  - destruct (Z.leb_spec (snd x) (snd y)) as [L | L].
    + constructor; [constructor; assumption |].
      constructor; [exact L |].
      eapply List.Forall_impl; [| exact Hy]. simpl. intros; lia.
    + constructor; [exact IH |].
      eapply Permutation_Forall; [symmetry; apply insert_entry_Permutation |].
      constructor; [lia | exact Hy].
Qed.

Lemma In_reset_index_lookup {X} (l : list X) (i : nat) (x : X) :
  In (i, x) (reset_index l) -> l !! i = Some x.
Proof.
  unfold reset_index.
  assert (G : forall s, In (i, x) (combine (seq s (length l)) l) ->
                        exists j, i = (s + j)%nat /\ l !! j = Some x).
  { induction l as [| y l IH]; intros s; simpl; [tauto |].
    intros [[= <- <-] | Hin].
    - exists 0%nat. split; [lia | reflexivity].
    - destruct (IH _ Hin) as (j & -> & Hj). exists (Datatypes.S j). split; [lia | exact Hj]. }
  intros Hin. destruct (G 0%nat Hin) as (j & -> & Hj). exact Hj.
Qed.

Lemma insertion_kind_laws : SortKindLaws insertion_kind.
Proof.
  split; intros keys; cbn [argsort insertion_kind]; unfold insertion_argsort.
  - rewrite (Permutation_map fst (insertion_Permutation (reset_index keys))).
    rewrite labels_reset_index. reflexivity.
  - pose proof (StronglySorted_within _ (fun e => keys !! fst e = Some (snd e)) _
                  (insertion_sorted (reset_index keys))) as Hs.
    eapply (StronglySorted_fmap fst); [| apply Hs].
    + intros [i x] [j y] (Hxy & Hi & Hj) x' y' Hx' Hy'. cbn in *. congruence.
    + apply List.Forall_forall. intros [i x] Hin.
      apply (Permutation_in _ (insertion_Permutation (reset_index keys))) in Hin.
      apply In_reset_index_lookup, Hin.
Qed.

(** ** Position of the maximum and of the minimum *)

Section ArgBest.
Variable better : Z -> Z -> bool.
Variable pick : Z -> Z -> Z.
Hypothesis pick_spec : forall b a, pick b a = if better a b then a else b.
Hypothesis better_irrefl : forall a, better a a = false.
Hypothesis better_trans :
  forall a b c, better a b = true -> better b c = true -> better a c = true.
Hypothesis better_total :
  forall a b, a <> b -> better a b = true \/ better b a = true.

(** Nothing in the series is better than the folded value. *)
Lemma fold_pick_top (t : list Z) (b : Z) :
  better b (foldl pick b t) = false /\
  List.Forall (fun x => better x (foldl pick b t) = false) t.
Proof.
  revert b. induction t as [| x t IH]; intros b; simpl.
  - split; [apply better_irrefl | constructor].
  - destruct (IH (pick b x)) as [Hb Ht]. rewrite pick_spec in *.
    set (m := foldl pick (if better x b then x else b) t) in *.
    destruct (better x b) eqn:E.
    + split; [| constructor; assumption].
      destruct (better b m) eqn:Em; [| reflexivity].
      rewrite (better_trans _ _ _ E Em) in Hb. discriminate.
    + split; [exact Hb | constructor; [| exact Ht]].
      destruct (better x m) eqn:Em; [| reflexivity].
      destruct (Z.eq_dec b x) as [-> | Hne]; [congruence |].
      destruct (better_total b x Hne) as [T | T]; [| congruence].
      rewrite (better_trans _ _ _ T Em) in Hb. discriminate.
Qed.

(** The folded value occurs in the series. *)
Lemma fold_pick_In (t : list Z) (b : Z) : In (foldl pick b t) (b :: t).
Proof.
  revert b. induction t as [| x t IH]; intros b; simpl; [auto |].
  specialize (IH (pick b x)). rewrite pick_spec in *.
  destruct (better x b); simpl in IH; tauto.
Qed.

(** The scan stops on the first row that holds the folded value. *)
Lemma argbest_first (t : list (nat * Z)) (best : nat * Z) :
  fst <$> head (List.filter (fun x => snd x =? foldl pick (snd best) (map snd t))
                            (best :: t))
  = Some (argbest better best t).
Proof.
  revert best. induction t as [| x t IH]; intros best.
  - simpl. rewrite Z.eqb_refl. reflexivity.
  - change (argbest better best (x :: t))
      with (if better (snd x) (snd best) then argbest better x t
            else argbest better best t).
    change (foldl pick (snd best) (map snd (x :: t)))
      with (foldl pick (pick (snd best) (snd x)) (map snd t)).
    rewrite pick_spec.
    destruct (better (snd x) (snd best)) eqn:E.
    + rewrite <- (IH x).
      set (m := foldl pick (snd x) (map snd t)).
      assert (Hb : (snd best =? m) = false).
      { apply Z.eqb_neq. intros Hm.
        destruct (fold_pick_top (map snd t) (snd x)) as [Hx _].
        fold m in Hx. rewrite <- Hm in Hx. congruence. }
      change (List.filter _ (best :: x :: t))
        with (if snd best =? m then best :: List.filter (fun y => snd y =? m) (x :: t)
              else List.filter (fun y => snd y =? m) (x :: t)).
      rewrite Hb. reflexivity.
    + rewrite <- (IH best).
      set (m := foldl pick (snd best) (map snd t)).
      change (List.filter _ (best :: x :: t))
        with (if snd best =? m then best :: List.filter (fun y => snd y =? m) (x :: t)
              else List.filter (fun y => snd y =? m) (x :: t)).
      change (List.filter (fun y => snd y =? m) (best :: t))
        with (if snd best =? m then best :: List.filter (fun y => snd y =? m) t
              else List.filter (fun y => snd y =? m) t).
      destruct (snd best =? m) eqn:Hb; [reflexivity |].
      apply Z.eqb_neq in Hb.
      assert (Hx : (snd x =? m) = false).
      { apply Z.eqb_neq. intros Hm.
        destruct (fold_pick_top (map snd t) (snd best)) as [Hb' _].
        fold m in Hb'. rewrite <- Hm in Hb'.
        destruct (Z.eq_dec (snd best) (snd x)) as [e | n]; [congruence |].
        destruct (better_total _ _ n); congruence. }
      simpl. rewrite Hx. reflexivity.
Qed.

Lemma argbest_In (t : list (nat * Z)) (best : nat * Z) :
  In (argbest better best t) (map fst (best :: t)).
Proof.
  revert best. induction t as [| x t IH]; intros best; simpl; [auto |].
  destruct (better (snd x) (snd best)).
  - specialize (IH x). simpl in IH. tauto.
  - specialize (IH best). simpl in IH. tauto.
Qed.
End ArgBest.

Lemma argmax_first (t : list (nat * Z)) (best : nat * Z) :
  fst <$> head (List.filter (fun x => snd x =? foldl Z.max (snd best) (map snd t))
                            (best :: t))
  = Some (argbest Z.gtb best t).
Proof.
  apply argbest_first.
  - intros b a. destruct (Z.gtb_spec a b); lia.
  - intros a. rewrite Z.gtb_ltb. apply Z.ltb_irrefl.
  - intros a b c. rewrite !Z.gtb_ltb, !Z.ltb_lt. lia.
  - intros a b. rewrite !Z.gtb_ltb, !Z.ltb_lt. lia.
Qed.

Lemma argmin_first (t : list (nat * Z)) (best : nat * Z) :
  fst <$> head (List.filter (fun x => snd x =? foldl Z.min (snd best) (map snd t))
                            (best :: t))
  = Some (argbest Z.ltb best t).
Proof.
  apply argbest_first.
  - intros b a. destruct (Z.ltb_spec a b); lia.
  - intros a. apply Z.ltb_irrefl.
  - intros a b c. rewrite !Z.ltb_lt. lia.
  - intros a b. rewrite !Z.ltb_lt. lia.
Qed.

Lemma series_max_In (s : list Z) (m : Z) : series_max s = Some m -> In m s.
Proof.
  destruct s as [| x t]; simpl; [discriminate |]. intros [= <-].
  apply (fold_pick_In Z.gtb). intros b a. destruct (Z.gtb_spec a b); lia.
Qed.

Lemma series_min_In (s : list Z) (m : Z) : series_min s = Some m -> In m s.
Proof.
  destruct s as [| x t]; simpl; [discriminate |]. intros [= <-].
  apply (fold_pick_In Z.ltb). intros b a. destruct (Z.ltb_spec a b); lia.
Qed.




(** ** Row labels *)

Lemma filter_label_NoDup {A} (f : Frame A) (l : nat) (r : A) :
  List.NoDup (map fst f) -> In (l, r) f ->
  List.filter (fun x => Nat.eqb (fst x) l) f = [(l, r)].
Proof.
  induction f as [| [l' r'] f IH]; simpl; [tauto |].
  intros Hn Hin. apply List.NoDup_cons_iff in Hn. destruct Hn as [Hl' Hn].
  destruct Hin as [[= -> ->] | Hin].
  - rewrite Nat.eqb_refl. f_equal.
    assert (E : forall g : Frame A, (forall x, In x g -> fst x <> l) ->
              List.filter (fun x => Nat.eqb (fst x) l) g = []).
    { induction g as [| y g IHg]; simpl; intros Hg; [reflexivity |].
      destruct (Nat.eqb_spec (fst y) l) as [e | n]; [exfalso; apply (Hg y); auto |].
      apply IHg. intros x Hx. apply Hg. auto. }
    apply E. intros x Hx e. apply Hl'. rewrite <- e. apply in_map, Hx.
  - destruct (Nat.eqb_spec l' l) as [-> | n].
    + exfalso. apply Hl'. change l with (fst (l, r)). apply in_map, Hin.
    + apply IH; assumption.
Qed.

(** With distinct labels [loc] returns the cell of the row that carries
    the label. *)
Lemma loc_NoDup {A} (f : Frame A) (l : nat) (r : A) (col : A -> Z) :
  List.NoDup (map fst f) -> In (l, r) f -> loc f l col = Some (Scalar (col r)).
Proof.
  intros Hn Hin. unfold loc. rewrite (filter_label_NoDup f l r Hn Hin). reflexivity.
Qed.

Lemma loc_In {A} (f : Frame A) (l : nat) (col : A -> Z) :
  In l (map fst f) -> is_Some (loc f l col).
Proof.
  intros Hin. unfold loc. apply in_map_iff in Hin. destruct Hin as ([l' r] & <- & Hin).
  assert (Hf : In (l', r) (List.filter (fun x => Nat.eqb (fst x) (fst (l', r))) f)).
  { apply filter_In. split; [exact Hin | apply Nat.eqb_refl]. }
  destruct (List.filter _ f) as [| x [| y t]]; [destruct Hf | eexists; reflexivity ..].
Qed.

Lemma column_values {A} (col : A -> Z) (f : Frame A) :
  map snd (column col f) = map col (rows f).
Proof. unfold column, rows. rewrite !map_map. reflexivity. Qed.

Lemma column_labels {A} (col : A -> Z) (f : Frame A) :
  map fst (column col f) = map fst f.
Proof. unfold column. rewrite map_map. reflexivity. Qed.

Lemma head_filter_column {A} (col : A -> Z) (m : Z) (f : Frame A) :
  head (List.filter (fun x => snd x =? m) (column col f))
  = (fun x => (fst x, col (snd x))) <$> head (List.filter (fun x => col (snd x) =? m) f).
Proof.
  induction f as [| x f IH]; simpl; [reflexivity |].
  destruct (col (snd x) =? m); [reflexivity | exact IH].
Qed.

Lemma head_filter_rows {A} (col : A -> Z) (m : Z) (f : Frame A) :
  head (List.filter (fun r => col r =? m) (rows f))
  = snd <$> head (List.filter (fun x => col (snd x) =? m) f).
Proof.
  induction f as [| x f IH]; simpl; [reflexivity |].
  destruct (col (snd x) =? m); [reflexivity | exact IH].
Qed.

Lemma head_In {X} (l : list X) (x : X) : head l = Some x -> In x l.
Proof. destruct l; simpl; [discriminate | intros [= ->]; auto]. Qed.

(** ** The two ways of reading the year of the maximum *)

(** Shape shared by the two entries: [fold] is [Z.max] or [Z.min],
    [better] the matching strict comparison. *)
Lemma year_of_best_agree (better : Z -> Z -> bool) (fold : Z -> Z -> Z)
    (f : Frame NatRow) :
  (forall t best,
     fst <$> head (List.filter (fun x => snd x =? foldl fold (snd best) (map snd t))
                               (best :: t)) = Some (argbest better best t)) ->
  List.NoDup (map fst f) ->
  (label ← match column n_Valeurs f with
           | [] => None | x :: t => Some (argbest better x t) end;
   loc f label n_Unite_temps)
  = (m ← match map n_Valeurs (rows f) with
         | [] => None | x :: t => Some (foldl fold x t) end;
     y ← iloc_first (map n_Unite_temps
            (List.filter (fun r => n_Valeurs r =? m) (rows f)));
     Some (Scalar y)).
Proof.
  intros Hfirst Hn. destruct f as [| x f]; [reflexivity |].
  change (column n_Valeurs (x :: f))
    with ((fst x, n_Valeurs (snd x)) :: column n_Valeurs f).
  change (map n_Valeurs (rows (x :: f)))
    with (n_Valeurs (snd x) :: map n_Valeurs (rows f)).
  cbn [mbind option_bind].
  set (m := foldl fold (n_Valeurs (snd x)) (map n_Valeurs (rows f))).
  pose proof (Hfirst (column n_Valeurs f) (fst x, n_Valeurs (snd x))) as Hf.
  rewrite column_values in Hf. cbn [snd] in Hf. fold m in Hf.
  change ((fst x, n_Valeurs (snd x)) :: column n_Valeurs f)
    with (column n_Valeurs (x :: f)) in Hf.
  rewrite head_filter_column in Hf.
  unfold iloc_first.
  assert (Hh : head (map n_Unite_temps
                 (List.filter (fun r => n_Valeurs r =? m) (rows (x :: f))))
               = n_Unite_temps <$> head (List.filter (fun r => n_Valeurs r =? m)
                                                     (rows (x :: f)))).
  { generalize (List.filter (fun r => n_Valeurs r =? m) (rows (x :: f))).
    intros [| ? ?]; reflexivity. }
  rewrite Hh, head_filter_rows.
  destruct (head (List.filter (fun y => n_Valeurs (snd y) =? m) (x :: f)))
    as [[l r] |] eqn:Hd; [| discriminate].
  simpl in Hf. injection Hf as Hl. rewrite <- Hl.
  apply head_In, filter_In in Hd. destruct Hd as [Hin _].
  rewrite (loc_NoDup _ l r n_Unite_temps Hn Hin). reflexivity.
Qed.

Lemma max_year_of_agree (f : Frame NatRow) :
  List.NoDup (map fst f) -> App.max_year_of f = Notebook.max_year_of f.
Proof. apply (year_of_best_agree Z.gtb Z.max), argmax_first. Qed.

Lemma min_year_of_agree (f : Frame NatRow) :
  List.NoDup (map fst f) -> App.min_year_of f = Notebook.min_year_of f.
Proof. apply (year_of_best_agree Z.ltb Z.min), argmin_first. Qed.

(** Neither way raises on a frame that has a row. *)
Lemma App_max_year_of_total (f : Frame NatRow) :
  f <> [] -> is_Some (App.max_year_of f).
Proof.
  destruct f as [| x f]; [congruence | intros _].
  unfold App.max_year_of. simpl. apply loc_In.
  pose proof (argbest_In Z.gtb (column n_Valeurs f) (fst x, n_Valeurs (snd x))) as Hin.
  simpl in Hin. rewrite column_labels in Hin. exact Hin.
Qed.

Lemma App_min_year_of_total (f : Frame NatRow) :
  f <> [] -> is_Some (App.min_year_of f).
Proof.
  destruct f as [| x f]; [congruence | intros _].
  unfold App.min_year_of. simpl. apply loc_In.
  pose proof (argbest_In Z.ltb (column n_Valeurs f) (fst x, n_Valeurs (snd x))) as Hin.
  simpl in Hin. rewrite column_labels in Hin. exact Hin.
Qed.

Lemma first_with_value (f : Frame NatRow) (m : Z) :
  In m (map n_Valeurs (rows f)) ->
  is_Some (iloc_first (map n_Unite_temps
             (List.filter (fun r => n_Valeurs r =? m) (rows f)))).
Proof.
  intros Hin. apply in_map_iff in Hin. destruct Hin as (r & Hr & Hin).
  assert (Hf : In r (List.filter (fun r => n_Valeurs r =? m) (rows f))).
  { apply filter_In. split; [exact Hin | apply Z.eqb_eq, Hr]. }
  destruct (List.filter _ (rows f)); [destruct Hf | eexists; reflexivity].
Qed.

Lemma Notebook_max_year_of_total (f : Frame NatRow) :
  f <> [] -> is_Some (Notebook.max_year_of f).
Proof.
  intros Hf. unfold Notebook.max_year_of.
  destruct (series_max (map n_Valeurs (rows f))) as [m |] eqn:Hm.
  - apply series_max_In in Hm. destruct (first_with_value f m Hm) as [y Hy].
    simpl. rewrite Hy. eexists; reflexivity.
  - destruct f; [congruence | discriminate].
Qed.

Lemma Notebook_min_year_of_total (f : Frame NatRow) :
  f <> [] -> is_Some (Notebook.min_year_of f).
Proof.
  intros Hf. unfold Notebook.min_year_of.
  destruct (series_min (map n_Valeurs (rows f))) as [m |] eqn:Hm.
  - apply series_min_In in Hm. destruct (first_with_value f m Hm) as [y Hy].
    simpl. rewrite Hy. eexists; reflexivity.
  - destruct f; [congruence | discriminate].
Qed.


(** ** The loop of [calculate_statistics] *)

Lemma head_map {X Y} (g : X -> Y) (l : list X) : head (map g l) = g <$> head l.
Proof. destruct l; reflexivity. Qed.

Lemma last_map {X Y} (g : X -> Y) (l : list X) : last (map g l) = g <$> last l.
Proof.
  induction l as [| x l IH]; [reflexivity |].
  destruct l as [| y l]; [reflexivity |]. exact IH.
Qed.

Lemma last_is_Some {X} (l : list X) : l <> [] -> is_Some (last l).
Proof.
  induction l as [| x l IH]; [congruence | intros _].
  destruct l as [| y l]; [eexists; reflexivity |]. apply IH. discriminate.
Qed.

Section IndicatorRows.
Context {kind : SortKind} {laws : SortKindLaws kind}.

Lemma indicator_rows_Permutation (national_data : Frame NatRow) (indicator : string) :
  Permutation (indicator_rows national_data indicator)
    (List.filter (fun x => String.eqb (n_Indicateur (snd x)) indicator) national_data).
Proof. apply sort_values_Permutation. Qed.

Lemma indicator_rows_length (national_data : Frame NatRow) (indicator : string) :
  length (indicator_rows national_data indicator)
  = length (List.filter (fun x => String.eqb (n_Indicateur (snd x)) indicator)
                        national_data).
Proof. apply Permutation_length, indicator_rows_Permutation. Qed.

Lemma indicator_rows_NoDup (national_data : Frame NatRow) (indicator : string) :
  List.NoDup (map fst national_data) ->
  List.NoDup (map fst (indicator_rows national_data indicator)).
Proof.
  intros Hn.
  eapply Permutation_NoDup.
  - symmetry. apply Permutation_map, indicator_rows_Permutation.
  - induction national_data as [| x f IH]; simpl; [constructor |].
    apply List.NoDup_cons_iff in Hn. destruct Hn as [Hx Hn].
    destruct (String.eqb (n_Indicateur (snd x)) indicator); simpl; [| auto].
    constructor; [| auto].
    intros Hin. apply Hx. apply in_map_iff in Hin. destruct Hin as (y & <- & Hy).
    apply filter_In in Hy. apply in_map, Hy.
Qed.

End IndicatorRows.

Section CalculateStatisticsFacts.
Context {kind : SortKind} {laws : SortKindLaws kind}.
Variable year_of_max year_of_min : Frame NatRow -> option LocResult.
Hypothesis year_of_max_total : forall f, f <> [] -> is_Some (year_of_max f).
Hypothesis year_of_min_total : forall f, f <> [] -> is_Some (year_of_min f).

Let stats_of := indicator_stats year_of_max year_of_min.

(** The branch [len(indicator_data) > 1] raises nothing. *)
Lemma indicator_stats_total (f : Frame NatRow) : f <> [] -> is_Some (stats_of f).
Proof.
  intros Hf. unfold stats_of, indicator_stats.
  destruct (year_of_max_total f Hf) as [ymax ->].
  destruct (year_of_min_total f Hf) as [ymin ->].
  destruct f as [| x f]; [congruence |].
  destruct (last_is_Some (map n_Valeurs (rows (x :: f)))) as [lv Hlv]; [discriminate |].
  destruct (last_is_Some (map n_Unite_temps (rows (x :: f)))) as [ly Hly]; [discriminate |].
  unfold iloc_last. rewrite Hlv, Hly. simpl. eexists; reflexivity.
Qed.

(** What the entries of the dictionary are, in terms of the first and
    the last row of [indicator_data]. *)
Lemma indicator_stats_inv (f : Frame NatRow) (s : IndicatorStats) :
  stats_of f = Some s ->
  exists first_row last_row,
    head (rows f) = Some first_row /\ last (rows f) = Some last_row /\
    first_value s = n_Valeurs first_row /\ last_value s = n_Valeurs last_row /\
    first_year s = n_Unite_temps first_row /\ last_year s = n_Unite_temps last_row /\
    evolution_abs s = last_value s - first_value s /\
    evolution_pct s =
      (if negb (first_value s =? 0)
       then (inject_Z (last_value s - first_value s) / inject_Z (first_value s)
             * inject_Z 100)%Q
       else inject_Z 0) /\
    total_cases s = sumZ (map n_Valeurs (rows f)) /\
    mean_annual s = series_mean (map n_Valeurs (rows f)) /\
    series_max (map n_Valeurs (rows f)) = Some (max_value s) /\
    series_min (map n_Valeurs (rows f)) = Some (min_value s) /\
    year_of_max f = Some (max_year s) /\ year_of_min f = Some (min_year s).
Proof.
  unfold stats_of, indicator_stats, iloc_first, iloc_last.
  rewrite !head_map, !last_map.
  destruct (head (rows f)) as [first_row |]; [| discriminate].
  destruct (last (rows f)) as [last_row |]; [| discriminate].
  cbn [fmap option_fmap option_map mbind option_bind].
  destruct (series_max _) as [mx |]; [| discriminate].
  destruct (series_min _) as [mn |]; [| discriminate].
  cbn [mbind option_bind].
  destruct (year_of_max f) as [ymax |]; [| discriminate].
  destruct (year_of_min f) as [ymin |]; [| discriminate].
  cbn [mbind option_bind]. intros [= <-]. cbn.
  exists first_row, last_row. repeat split; reflexivity.
Qed.

Lemma calculate_statistics_loop_spec (national_data : Frame NatRow)
    (selected_indicators : list string) (stats : gmap string IndicatorStats) :
  exists stats',
    calculate_statistics_loop year_of_max year_of_min national_data stats
      selected_indicators = Some stats' /\
    forall indicator,
      stats' !! indicator =
      if isin indicator selected_indicators
         && (1 <? length (indicator_rows national_data indicator))%nat
      then stats_of (indicator_rows national_data indicator)
      else stats !! indicator.
Proof.
  revert stats. induction selected_indicators as [| a rest IH]; intros stats.
  - exists stats. split; [reflexivity | intros indicator; reflexivity].
  - cbn [calculate_statistics_loop]. unfold calculate_statistics_step.
    destruct (1 <? length (indicator_rows national_data a))%nat eqn:Hlen.
    + destruct (indicator_stats_total (indicator_rows national_data a)) as [s Hs].
      { intros E. rewrite E in Hlen. discriminate. }
      fold stats_of. rewrite Hs. cbn [mbind option_bind].
      destruct (IH (<[a := s]> stats)) as (stats' & Hloop & Hlook).
      exists stats'. split; [exact Hloop |].
      intros indicator. rewrite Hlook.
      change (isin indicator (a :: rest))
        with (String.eqb indicator a || isin indicator rest).
      destruct (String.eqb_spec indicator a) as [-> | Hne]; cbn [orb].
      * rewrite Hlen. destruct (isin a rest); cbn [andb]; [reflexivity |].
        rewrite lookup_insert_eq. symmetry. exact Hs.
      * rewrite lookup_insert_ne by congruence. reflexivity.
    + cbn [mbind option_bind].
      destruct (IH stats) as (stats' & Hloop & Hlook).
      exists stats'. split; [exact Hloop |].
      intros indicator. rewrite Hlook.
      change (isin indicator (a :: rest))
        with (String.eqb indicator a || isin indicator rest).
      destruct (String.eqb_spec indicator a) as [-> | Hne]; cbn [orb]; [| reflexivity].
      rewrite Hlen, !andb_false_r. reflexivity.
Qed.

(** The returned dictionary: it exists (no exception), and it has an
    entry exactly for the selected indicators with more than one row. *)
Lemma calculate_statistics_with_spec (national_data : Frame NatRow)
    (selected_indicators : list string) :
  exists stats,
    calculate_statistics_with year_of_max year_of_min national_data
      selected_indicators = Some stats /\
    forall indicator,
      stats !! indicator =
      if isin indicator selected_indicators
         && (1 <? length (indicator_rows national_data indicator))%nat
      then stats_of (indicator_rows national_data indicator)
      else None.
Proof.
  destruct (calculate_statistics_loop_spec national_data selected_indicators ∅)
    as (stats & Hloop & Hlook).
  exists stats. split; [exact Hloop |].
  intros indicator. rewrite Hlook, lookup_empty. reflexivity.
Qed.
End CalculateStatisticsFacts.


(** ** Strictly ascending keys *)

Lemma StronglySorted_NoDup_strict {X} (Rel : relation X) (l : list X) :
  StronglySorted Rel l -> List.NoDup l ->
  StronglySorted (fun a b => Rel a b /\ a <> b) l.
Proof.
  induction 1 as [| a l Hs IH Ha]; intros Hn; [constructor |].
  apply List.NoDup_cons_iff in Hn. destruct Hn as [Hna Hn].
  constructor; [apply IH, Hn |].
  rewrite List.Forall_forall in *. intros b Hb. split; [apply Ha, Hb |].
  intros ->. contradiction.
Qed.

(** The group keys of a [groupby] are strictly ascending. *)
Lemma groupby_sum_keys_ascending {R K} `{KeyOrderLaws K} (key : R -> K)
    (val : R -> Z) (l : list R) :
  StronglySorted (fun a b => kleb (fst a) (fst b) = true /\ fst a <> fst b)
    (groupby_sum key val l).
Proof.
  unfold groupby_sum.
  pose proof (StronglySorted_NoDup_strict _ _
                (sort_keys_sorted (unique (map key l)))
                (NoDup_sort_keys _ (NoDup_unique (map key l)))) as Hs.
  revert Hs. generalize (sort_keys (unique (map key l))). intros ks Hs.
  eapply StronglySorted_fmap; [| exact Hs]. intros a b Hab. exact Hab.
Qed.


(** ** The two scripts' calculators *)

Section Calculators.
Context {kind : SortKind} {laws : SortKindLaws kind}.

Lemma NoDup_labels_reset_index {X} (l : list X) : List.NoDup (map fst (reset_index l)).
Proof. rewrite labels_reset_index. apply List.seq_NoDup. Qed.

Lemma NoDup_labels_get_national_statistics (df : list Record_)
    (selected_indicators : list string) (selected_years : list Z) :
  List.NoDup (map fst (get_national_statistics df selected_indicators selected_years)).
Proof. apply NoDup_labels_reset_index. Qed.

Lemma calculate_statistics_loop_ext
    (ymax ymin ymax' ymin' : Frame NatRow -> option LocResult)
    (national_data : Frame NatRow) (selected_indicators : list string)
    (stats : gmap string IndicatorStats) :
  (forall indicator,
     indicator_stats ymax ymin (indicator_rows national_data indicator)
     = indicator_stats ymax' ymin' (indicator_rows national_data indicator)) ->
  calculate_statistics_loop ymax ymin national_data stats selected_indicators
  = calculate_statistics_loop ymax' ymin' national_data stats selected_indicators.
Proof.
  intros Hext. revert stats.
  induction selected_indicators as [| a rest IH]; intros stats; [reflexivity |].
  cbn [calculate_statistics_loop]. unfold calculate_statistics_step.
  rewrite (Hext a).
  destruct (1 <? length (indicator_rows national_data a))%nat; cbn [mbind option_bind].
  - destruct (indicator_stats ymax' ymin' _); cbn [mbind option_bind]; [apply IH | reflexivity].
  - apply IH.
Qed.

(** On a frame whose row labels are distinct the two scripts return the
    same dictionary. *)
Lemma calculate_statistics_agree (national_data : Frame NatRow)
    (selected_indicators : list string) :
  List.NoDup (map fst national_data) ->
  App.calculate_statistics national_data selected_indicators
  = Notebook.calculate_statistics national_data selected_indicators.
Proof.
  intros Hn. apply calculate_statistics_loop_ext. intros indicator.
  unfold indicator_stats.
  rewrite (max_year_of_agree _ (indicator_rows_NoDup _ indicator Hn)).
  rewrite (min_year_of_agree _ (indicator_rows_NoDup _ indicator Hn)).
  reflexivity.
Qed.

(** With a repeated label [loc] does not return a cell. *)
Example loc_repeated_label :
  loc [(0%nat, mkNat 2016 "Vol" 5); (0%nat, mkNat 2017 "Vol" 9)] 0 n_Unite_temps
  = Some (SubSeries [2016; 2017]).
Proof. reflexivity. Qed.

(** Each script's calculator is the common loop with entries for
    ['max_year'] and ['min_year'] that raise nothing on a non-empty
    frame. *)
Lemma scripts_calculators (calc : Frame NatRow -> list string ->
                                  option (gmap string IndicatorStats)) :
  calc = App.calculate_statistics \/ calc = Notebook.calculate_statistics ->
  exists ymax ymin,
    calc = calculate_statistics_with ymax ymin /\
    (forall f, f <> [] -> is_Some (ymax f)) /\
    (forall f, f <> [] -> is_Some (ymin f)).
Proof.
  intros [-> | ->].
  - exists App.max_year_of, App.min_year_of.
    split; [reflexivity |]. split; [apply App_max_year_of_total | apply App_min_year_of_total].
  - exists Notebook.max_year_of, Notebook.min_year_of.
    split; [reflexivity |].
    split; [apply Notebook_max_year_of_total | apply Notebook_min_year_of_total].
Qed.

Lemma filter_map_commute {X Y} (g : X -> Y) (p : Y -> bool) (l : list X) :
  List.filter p (map g l) = map g (List.filter (fun x => p (g x)) l).
Proof.
  induction l as [| x l IH]; simpl; [reflexivity |].
  destruct (p (g x)); simpl; rewrite IH; reflexivity.
Qed.

Lemma NoDup_map_filter {X Y} (g : X -> Y) (p : X -> bool) (l : list X) :
  List.NoDup (map g l) -> List.NoDup (map g (List.filter p l)).
Proof.
  induction l as [| x l IH]; simpl; [auto |]. intros Hn.
  apply List.NoDup_cons_iff in Hn. destruct Hn as [Hx Hn].
  destruct (p x); simpl; [| auto].
  constructor; [| auto]. intros Hin. apply Hx.
  apply in_map_iff in Hin. destruct Hin as (y & <- & Hy).
  apply filter_In in Hy. apply in_map, Hy.
Qed.

(** More than one row of an indicator in a series keyed by (year,
    indicator): two rows of the indicator with different years. *)
Lemma two_rows_two_years (national_data : Frame NatRow) (indicator : string) :
  List.NoDup (map (fun n => (n_Unite_temps n, n_Indicateur n)) (rows national_data)) ->
  (1 < length (indicator_rows national_data indicator))%nat ->
  exists r1 r2,
    In r1 (rows national_data) /\ In r2 (rows national_data) /\
    n_Indicateur r1 = indicator /\ n_Indicateur r2 = indicator /\
    n_Unite_temps r1 <> n_Unite_temps r2.
Proof.
  intros Hn Hlen. rewrite indicator_rows_length in Hlen.
  set (p := fun n : NatRow => String.eqb (n_Indicateur n) indicator).
  assert (E : rows (List.filter (fun x => p (snd x)) national_data)
              = List.filter p (rows national_data)).
  { unfold rows. symmetry. apply filter_map_commute. }
  assert (Hlen' : (1 < length (List.filter p (rows national_data)))%nat).
  { rewrite <- E. unfold rows. rewrite length_map. exact Hlen. }
  apply (NoDup_map_filter _ p) in Hn.
  destruct (List.filter p (rows national_data)) as [| r1 [| r2 rest]] eqn:Hf;
    [simpl in Hlen'; lia .. |].
  assert (H1 : In r1 (List.filter p (rows national_data))) by (rewrite Hf; simpl; auto).
  assert (H2 : In r2 (List.filter p (rows national_data))) by (rewrite Hf; simpl; auto).
  apply filter_In in H1, H2. destruct H1 as [H1 P1], H2 as [H2 P2].
  apply String.eqb_eq in P1, P2.
  exists r1, r2. repeat split; try assumption.
  intros Hy. simpl in Hn. apply List.NoDup_cons_iff in Hn. destruct Hn as [Hn _].
  apply Hn. left. congruence.
Qed.
End Calculators.


(** ** Loading *)

Lemma has_column_In (df : CsvFrame) (col : string) :
  App.has_column df col = true <-> In col (columns df).
Proof.
  unfold App.has_column. rewrite existsb_exists. split.
  - intros (c & Hc & E). apply String.eqb_eq in E. subst c. exact Hc.
  - intros Hc. exists col. split; [exact Hc | apply String.eqb_refl].
Qed.


(** What is parsed is the file at the first candidate path that
    exists. *)
Lemma try_paths_Parsed (read_csv : string -> ReadResult) (paths : list string)
    (df : CsvFrame) :
  App.try_paths read_csv paths = Parsed df ->
  exists before path after,
    paths = (before ++ path :: after)%list /\ read_csv path = Parsed df /\
    forall p, In p before -> read_csv p = FileNotFoundError.
Proof.
  induction paths as [| p paths IH]; simpl; [discriminate |].
  destruct (read_csv p) eqn:E; [| discriminate |].
  - intros H. destruct (IH H) as (before & path & after & -> & Hp & Hb).
    exists (p :: before), path, after. split; [reflexivity |]. split; [exact Hp |].
    intros q [<- | Hq]; [exact E | apply Hb, Hq].
  - intros [= <-]. exists [], p, paths. split; [reflexivity |]. split; [exact E |].
    intros q [].
Qed.





(** ** Independence of the order of the rows *)

Lemma List_filter_Permutation {X} (p : X -> bool) (l l' : list X) :
  Permutation l l' -> Permutation (List.filter p l) (List.filter p l').
Proof.
  induction 1 as [| x l l' Hp IH | x y l | l l' l'' H1 IH1 H2 IH2]; simpl.
  - constructor.
  - destruct (p x); [constructor |]; exact IH.
  - destruct (p x), (p y); try reflexivity. apply perm_swap.
  - etransitivity; eassumption.
Qed.

Section GroupByPermutation.
Context {R K : Type} `{KeyOrderLaws K}.
Variable key : R -> K.
Variable val : R -> Z.

End GroupByPermutation.



(** ** The department codes that pass the filters *)

Lemma mapM_In {X Y} (f : X -> option Y) (l : list X) (k : list Y) (y : Y) :
  mapM f l = Some k -> In y k -> exists x, In x l /\ f x = Some y.
Proof.
  intros Hm. apply mapM_Some_1 in Hm.
  induction Hm as [| x y' l k Hxy Hm IH]; simpl; [tauto |].
  intros [<- | Hy]; [eauto |].
  destruct (IH Hy) as (x' & Hx' & Hf). eauto.
Qed.

(** What [^[0-9]{2}$] accepts: two digits, or two digits and a line
    break. *)
Lemma match_two_digits_shape (s : string) :
  match_two_digits s = true ->
  exists a b,
    is_digit a = true /\ is_digit b = true /\
    (s = String a (String b EmptyString)
     \/ s = String a (String b (String newline EmptyString))).
Proof.
  destruct s as [| a [| b rest]]; simpl; try discriminate.
  rewrite !andb_true_iff. intros [[Ha Hb] Hr].
  exists a, b. split; [exact Ha |]. split; [exact Hb |].
  destruct rest as [| c [| d rest]]; [left; reflexivity | right | discriminate].
  apply Ascii.eqb_eq in Hr. subst c. reflexivity.
Qed.

Lemma zfill_two_digits (s : string) : match_two_digits s = true -> zfill 2 s = s.
Proof.
  intros H. destruct (match_two_digits_shape s H) as (a & b & _ & _ & [-> | ->]);
    reflexivity.
Qed.

(** The codes of the set loaded by [app.py]: accepted by the pattern and
    within ["01"], ["95"]. *)
Lemma App_load_data_codes (to_numeric to_int : string -> option Z)
    (read_csv : string -> ReadResult) (df : list Record_) :
  App.load_data to_numeric to_int read_csv = Loaded df ->
  forall r, In r df ->
    match_two_digits (Code_dep r) = true /\ between "01" "95" (Code_dep r) = true.
Proof.
  unfold App.load_data.
  destruct (App.try_paths read_csv App.possible_paths) as [| | raw]; try discriminate.
  unfold App.clean.
  destruct (List.filter _ App.required_columns); [| discriminate].
  cbv zeta.
  destruct (negb (if negb (App.has_column raw "Code_dep") then true
                  else is_object c_Code_dep (csv_rows raw))); [discriminate |].
  match goal with |- context [mapM ?f ?l] => destruct (mapM f l) as [records |] eqn:Hm end;
    [| discriminate].
  intros [= <-] r Hr.
  destruct (mapM_In _ _ _ r Hm Hr) as (sel & Hsel & Hrec).
  apply filter_In in Hsel. destruct Hsel as [Hsel Hbetween].
  apply in_map_iff in Hsel. destruct Hsel as (sel4 & <- & Hsel4).
  apply filter_In in Hsel4. destruct Hsel4 as [_ Hmatch].
  unfold App.code_matches in Hmatch. unfold App.code_between in Hbetween.
  unfold App.to_record in Hrec. cbn [App.set_Code_dep s_Code_dep s_Unite_temps
    s_Zone_geographique s_Valeurs s_Indicateur] in *.
  destruct (s_Code_dep sel4) as [| z | s]; try discriminate.
  cbn [App.zfill_cell] in *. rewrite (zfill_two_digits s Hmatch) in *.
  destruct (App.astype_int to_int (s_Unite_temps sel4)); [| discriminate].
  destruct (s_Zone_geographique sel4); [| discriminate].
  destruct (s_Valeurs sel4); try discriminate.
  destruct (s_Indicateur sel4); [| discriminate].
  cbn in Hrec. injection Hrec as <-. cbn [Code_dep]. auto.
Qed.

(** The same for the notebook script. *)
Lemma Notebook_load_data_codes (to_numeric : string -> option Z)
    (read_csv : string -> ReadResult) (df : list Notebook.Row) :
  Notebook.load_data to_numeric read_csv = Loaded df ->
  forall r, In r df ->
    match_two_digits (Notebook.nb_Code_dep r) = true /\
    between "01" "95" (Notebook.nb_Code_dep r) = true.
Proof.
  unfold Notebook.load_data.
  destruct (read_csv "serieschrono-datagouv.csv") as [| | raw]; try discriminate.
  unfold Notebook.clean.
  destruct (negb (forallb _ _)); [discriminate |].
  cbv zeta.
  destruct (negb (is_object c_Code_dep (csv_rows raw))); [discriminate |].
  match goal with |- context [mapM ?f ?l] => destruct (mapM f l) as [records |] eqn:Hm end;
    [| discriminate].
  intros [= <-] r Hr.
  destruct (mapM_In _ _ _ r Hm Hr) as (sel & Hsel & Hrec).
  apply filter_In in Hsel. destruct Hsel as [Hsel Hbetween].
  apply filter_In in Hsel. destruct Hsel as [_ Hmatch].
  unfold App.code_matches in Hmatch. unfold Notebook.code_between in Hbetween.
  unfold Notebook.to_row in Hrec.
  destruct (s_Code_dep sel) as [| z | s]; try discriminate.
  rewrite (zfill_two_digits s Hmatch) in *.
  destruct (s_Unite_temps sel); try discriminate;
    (destruct (s_Zone_geographique sel); [| discriminate]);
    (destruct (s_Valeurs sel); try discriminate);
    (destruct (s_Indicateur sel); [| discriminate]);
    cbn in Hrec; injection Hrec as <-; cbn [Notebook.nb_Code_dep]; auto.
Qed.

(** A loaded code has two characters unless it ends with a line break. *)
Lemma two_digits_length (s : string) :
  match_two_digits s = true ->
  String.length s = 2%nat \/
  (String.length s = 3%nat /\ String.get 2 s = Some newline).
Proof.
  intros H. destruct (match_two_digits_shape s H) as (a & b & _ & _ & [-> | ->]);
    [left | right]; auto.
Qed.

(** * The aggregation claims *)

Lemma List_filter_decide {A} (f : A -> bool) (P : A -> Prop) `{forall x, Decision (P x)}
    (l : list A) :
  (forall x, f x = true <-> P x) -> List.filter f l = filter P l.
Proof.
  intros Hf. induction l as [| x l IH]; [reflexivity |].
  cbn [List.filter]. rewrite filter_cons.
  destruct (decide (P x)) as [p | n].
  - rewrite (proj2 (Hf x) p). f_equal. exact IH.
  - destruct (f x) eqn:E; [apply Hf in E; contradiction | exact IH].
Qed.

Lemma filtered_df_matching (df : list Record_) (selected_indicators : list string)
    (selected_years : list Z) :
  List.filter (fun r => isin (Indicateur r) selected_indicators
                        && isin (Unite_temps r) selected_years) df
  = matching selected_indicators selected_years df.
Proof.
  apply List_filter_decide. intros r.
  rewrite andb_true_iff, !isin_In, !list_elem_of_In. reflexivity.
Qed.

Lemma dept_data_matching (df : list Record_) (selected_indicator : string)
    (selected_year : Z) :
  List.filter (fun r => String.eqb (Indicateur r) selected_indicator
                        && (Unite_temps r =? selected_year)) df
  = matching_exactly selected_indicator selected_year df.
Proof.
  apply List_filter_decide. intros r.
  rewrite andb_true_iff, String.eqb_eq, Z.eqb_eq. reflexivity.
Qed.

(** The national series as the grouped sums of the matching rows. *)
Lemma get_national_statistics_rows (df : list Record_)
    (selected_indicators : list string) (selected_years : list Z) :
  rows (get_national_statistics df selected_indicators selected_years)
  = map (fun kv => mkNat (fst (fst kv)) (snd (fst kv)) (snd kv))
        (groupby_sum (fun r => (Unite_temps r, Indicateur r)) Valeurs
           (matching selected_indicators selected_years df)).
Proof.
  unfold get_national_statistics. rewrite rows_reset_index, filtered_df_matching.
  reflexivity.
Qed.



(** The ranking as the sorted table of the per-zone sums. *)
Lemma create_departmental_analysis_Some {kind : SortKind} (df : list Record_)
    (selected_indicator : string) (selected_year : Z) :
  matching_exactly selected_indicator selected_year df <> [] ->
  create_departmental_analysis df selected_indicator selected_year
  = Some (sort_values d_Valeurs false
            (reset_index
               (map (fun kv => mkDept (fst kv) (snd kv))
                  (groupby_sum Zone_geographique Valeurs
                     (matching_exactly selected_indicator selected_year df))))).
Proof.
  unfold create_departmental_analysis. rewrite dept_data_matching.
  destruct (matching_exactly selected_indicator selected_year df); [congruence | reflexivity].
Qed.

Lemma create_departmental_analysis_inv {kind : SortKind} (df : list Record_)
    (selected_indicator : string) (selected_year : Z) (ranking : Frame DeptRow) :
  create_departmental_analysis df selected_indicator selected_year = Some ranking ->
  ranking = sort_values d_Valeurs false
              (reset_index
                 (map (fun kv => mkDept (fst kv) (snd kv))
                    (groupby_sum Zone_geographique Valeurs
                       (matching_exactly selected_indicator selected_year df)))).
Proof.
  intros E.
  destruct (matching_exactly selected_indicator selected_year df) eqn:Hm.
  - unfold create_departmental_analysis in E. rewrite dept_data_matching, Hm in E.
    discriminate.
  - rewrite create_departmental_analysis_Some in E by (rewrite Hm; discriminate).
    rewrite Hm in E. congruence.
Qed.

(** A table of two rows with different values has one descending
    order. *)
Lemma sort_values_two_rows {kind : SortKind} {laws : SortKindLaws kind} {A}
    (col : A -> Z) (a b : nat * A) :
  col (snd b) < col (snd a) -> sort_values col false [a; b] = [a; b].
Proof.
  intros Hlt.
  pose proof (sort_values_Permutation col false [a; b]) as Hp.
  pose proof (sort_values_sorted col false [a; b]) as Hs.
  destruct (sort_values col false [a; b]) as [| x [| y [| z t]]];
    try (apply Permutation_length in Hp; discriminate).
  destruct (Permutation_length_2 Hp) as [[-> ->] | [-> ->]]; [reflexivity |].
  apply StronglySorted_inv in Hs. destruct Hs as [_ Hs].
  inversion Hs; subst. cbn in *. lia.
Qed.


(** C8. On the three rows (2016, "01", "Vol", 10), (2017, "01", "Vol",
    15), (2016, "02", "Vol", 5), the national aggregation for "Vol" and
    the years 2016, 2017 is exactly (2016, "Vol") -> 15, (2017, "Vol") ->
    15, and the departmental ranking for "Vol" in 2016 is exactly
    ("01", 10), ("02", 5), in that order, whatever the sorting
    algorithm. *)
Theorem C8_worked_example {kind : SortKind} (laws : SortKindLaws kind) :
  rows (get_national_statistics example_df ["Vol"] [2016; 2017])
  = [mkNat 2016 "Vol" 15; mkNat 2017 "Vol" 15] /\
  rows <$> create_departmental_analysis example_df "Vol" 2016
  = Some [mkDept "01" 10; mkDept "02" 5].
Proof.
  split; [vm_compute; reflexivity |].
  rewrite create_departmental_analysis_Some by (vm_compute; discriminate).
  replace (reset_index _)
    with [(0%nat, mkDept "01" 10); (1%nat, mkDept "02" 5)] by (vm_compute; reflexivity).
  rewrite sort_values_two_rows by (cbn; lia). reflexivity.
Qed.

Lemma C8_worked_example_witness :
  rows (get_national_statistics example_df ["Vol"] [2016; 2017])
  = [mkNat 2016 "Vol" 15; mkNat 2017 "Vol" 15] /\
  rows <$> create_departmental_analysis (kind := insertion_kind) example_df "Vol" 2016
  = Some [mkDept "01" 10; mkDept "02" 5].
Proof. exact (C8_worked_example insertion_kind_laws). Defined.






(** * The statistics claims *)



(** C5. For either script, for every national series (a table with at
    most one row per (year, indicator) pair) and every indicator: the
    calculator returns a dictionary (it raises nothing); the indicator
    has an entry only if it was selected and the series holds rows of
    it for at least two distinct years; an indicator whose rows all
    bear one year has no entry. *)
Theorem C5_two_years_required {kind : SortKind} (laws : SortKindLaws kind)
    (calc : Frame NatRow -> list string -> option (gmap string IndicatorStats))
    (national_data : Frame NatRow) (selected_indicators : list string)
    (indicator : string) :
  calc = App.calculate_statistics \/ calc = Notebook.calculate_statistics ->
  List.NoDup (map (fun n => (n_Unite_temps n, n_Indicateur n)) (rows national_data)) ->
  exists stats,
    calc national_data selected_indicators = Some stats /\
    (is_Some (stats !! indicator) ->
     In indicator selected_indicators /\
     exists r1 r2,
       In r1 (rows national_data) /\ In r2 (rows national_data) /\
       n_Indicateur r1 = indicator /\ n_Indicateur r2 = indicator /\
       n_Unite_temps r1 <> n_Unite_temps r2) /\
    ((exists year, forall r, In r (rows national_data) ->
                     n_Indicateur r = indicator -> n_Unite_temps r = year) ->
     stats !! indicator = None).
Proof.
  intros Hcalc Hn.
  destruct (scripts_calculators calc Hcalc) as (ymax & ymin & -> & Hmax & Hmin).
  destruct (calculate_statistics_with_spec ymax ymin Hmax Hmin national_data
              selected_indicators) as (stats & Hs & Hspec).
  exists stats. split; [exact Hs |]. split.
  - intros [s Hlook]. rewrite Hspec in Hlook.
    destruct (isin indicator selected_indicators) eqn:Hsel; [| discriminate].
    destruct (1 <? length (indicator_rows national_data indicator))%nat eqn:Hlen;
      [| discriminate].
    split; [apply isin_In, Hsel |].
    apply two_rows_two_years; [exact Hn | apply Nat.ltb_lt, Hlen].
  - intros [year Hyear]. rewrite Hspec.
    destruct (1 <? length (indicator_rows national_data indicator))%nat eqn:Hlen;
      [| rewrite andb_false_r; reflexivity].
    exfalso. apply Nat.ltb_lt in Hlen.
    destruct (two_rows_two_years national_data indicator Hn Hlen)
      as (r1 & r2 & H1 & H2 & I1 & I2 & Hne).
    apply Hne. rewrite (Hyear r1 H1 I1), (Hyear r2 H2 I2). reflexivity.
Qed.

(** A series with one year of "Cam" and two years of "Vol". *)
Lemma C5_two_years_required_witness :
  let national_data :=
    get_national_statistics
      (mkRecord 2017 "03" 7 "Cam" "03" :: example_df) ["Vol"; "Cam"] [2016; 2017] in
  exists stats,
    Notebook.calculate_statistics (kind := insertion_kind) national_data
      ["Vol"; "Cam"] = Some stats /\
    (is_Some (stats !! "Cam") ->
     In "Cam" ["Vol"; "Cam"] /\
     exists r1 r2,
       In r1 (rows national_data) /\ In r2 (rows national_data) /\
       n_Indicateur r1 = "Cam" /\ n_Indicateur r2 = "Cam" /\
       n_Unite_temps r1 <> n_Unite_temps r2) /\
    ((exists year, forall r, In r (rows national_data) ->
                     n_Indicateur r = "Cam" -> n_Unite_temps r = year) ->
     stats !! "Cam" = None).
Proof.
  intros national_data.
  apply (C5_two_years_required insertion_kind_laws Notebook.calculate_statistics
           national_data ["Vol"; "Cam"] "Cam" (or_intror eq_refl)).
  apply NoDup_ListNoDup. apply (bool_decide_unpack _). vm_compute. reflexivity.
Defined.

(** The year the notebook script stores: that of the first row holding
    the extreme value. *)
Lemma Notebook_max_year_of_first (f : Frame NatRow) (m : Z) (y : LocResult) :
  series_max (map n_Valeurs (rows f)) = Some m ->
  Notebook.max_year_of f = Some y ->
  exists r, head (filter (fun r => n_Valeurs r = m) (rows f)) = Some r /\
            y = Scalar (n_Unite_temps r).
Proof.
  intros Hm. unfold Notebook.max_year_of, iloc_first. rewrite Hm. cbn [mbind option_bind].
  rewrite head_map, (List_filter_decide _ (fun r => n_Valeurs r = m))
    by (intros r; apply Z.eqb_eq).
  destruct (head _) as [r |]; [| discriminate]. cbn. intros [= <-]. eauto.
Qed.

Lemma Notebook_min_year_of_first (f : Frame NatRow) (m : Z) (y : LocResult) :
  series_min (map n_Valeurs (rows f)) = Some m ->
  Notebook.min_year_of f = Some y ->
  exists r, head (filter (fun r => n_Valeurs r = m) (rows f)) = Some r /\
            y = Scalar (n_Unite_temps r).
Proof.
  intros Hm. unfold Notebook.min_year_of, iloc_first. rewrite Hm. cbn [mbind option_bind].
  rewrite head_map, (List_filter_decide _ (fun r => n_Valeurs r = m))
    by (intros r; apply Z.eqb_eq).
  destruct (head _) as [r |]; [| discriminate]. cbn. intros [= <-]. eauto.
Qed.

(** C9 (as amended). On every national series, and on every table whose
    row labels are distinct (the result of [get_national_statistics]
    has the labels 0, 1, ...), the two scripts' calculators return the
    same dictionary, ['max_year'] and ['min_year'] included: the label
    found by [idxmax] ([idxmin]) is that of the first row, in ascending
    year order, that holds the maximum (minimum), which is the row the
    boolean mask selects first. *)
Theorem C9_calculators_agree {kind : SortKind} (laws : SortKindLaws kind)
    (national_data : Frame NatRow) (selected_indicators : list string) :
  List.NoDup (map fst national_data) ->
  App.calculate_statistics national_data selected_indicators
  = Notebook.calculate_statistics national_data selected_indicators /\
  forall stats indicator s,
    App.calculate_statistics national_data selected_indicators = Some stats ->
    stats !! indicator = Some s ->
    exists r_max r_min,
      head (filter (fun r => n_Valeurs r = max_value s)
              (rows (indicator_rows national_data indicator))) = Some r_max /\
      max_year s = Scalar (n_Unite_temps r_max) /\
      head (filter (fun r => n_Valeurs r = min_value s)
              (rows (indicator_rows national_data indicator))) = Some r_min /\
      min_year s = Scalar (n_Unite_temps r_min).
Proof.
  intros Hn. split; [apply calculate_statistics_agree, Hn |].
  intros stats indicator s Hstats Hlook.
  rewrite (calculate_statistics_agree _ _ Hn) in Hstats.
  destruct (calculate_statistics_with_spec Notebook.max_year_of Notebook.min_year_of
              Notebook_max_year_of_total Notebook_min_year_of_total
              national_data selected_indicators) as (stats' & Hs' & Hspec).
  unfold Notebook.calculate_statistics in Hstats. rewrite Hs' in Hstats.
  injection Hstats as <-. rewrite Hspec in Hlook.
  destruct (isin indicator selected_indicators && _); [| discriminate].
  apply indicator_stats_inv in Hlook.
  destruct Hlook as (_ & _ & _ & _ & _ & _ & _ & _ & _ & _ & _ & _ & Hmx & Hmn & Hymax & Hymin).
  destruct (Notebook_max_year_of_first _ _ _ Hmx Hymax) as (r_max & H1 & H2).
  destruct (Notebook_min_year_of_first _ _ _ Hmn Hymin) as (r_min & H3 & H4).
  exists r_max, r_min. auto.
Qed.

Lemma C9_calculators_agree_witness :
  let national_data := get_national_statistics example_df ["Vol"] [2016; 2017] in
  App.calculate_statistics (kind := insertion_kind) national_data ["Vol"]
  = Notebook.calculate_statistics (kind := insertion_kind) national_data ["Vol"] /\
  forall stats indicator s,
    App.calculate_statistics (kind := insertion_kind) national_data ["Vol"]
    = Some stats ->
    stats !! indicator = Some s ->
    exists r_max r_min,
      head (filter (fun r => n_Valeurs r = max_value s)
              (rows (indicator_rows (kind := insertion_kind) national_data indicator)))
      = Some r_max /\
      max_year s = Scalar (n_Unite_temps r_max) /\
      head (filter (fun r => n_Valeurs r = min_value s)
              (rows (indicator_rows (kind := insertion_kind) national_data indicator)))
      = Some r_min /\
      min_year s = Scalar (n_Unite_temps r_min).
Proof.
  intros national_data.
  apply (C9_calculators_agree insertion_kind_laws national_data ["Vol"]).
  apply NoDup_ListNoDup. apply (bool_decide_unpack _). vm_compute. reflexivity.
Defined.

(** C9 as it is written fails: with no sorting algorithm does a
    national series make the two calculators return different
    ['max_year'] or ['min_year']. *)
Lemma C9_divergence_counterexample :
  ~ (exists (kind : SortKind) (laws : SortKindLaws kind) (df : list Record_) (selected_indicators selected : list string)
            (selected_years : list Z)
            (stats_app stats_notebook : gmap string IndicatorStats)
            (indicator : string) (s_app s_notebook : IndicatorStats),
       let national_data :=
         get_national_statistics df selected_indicators selected_years in
       App.calculate_statistics national_data selected = Some stats_app /\
       Notebook.calculate_statistics national_data selected = Some stats_notebook /\
       stats_app !! indicator = Some s_app /\
       stats_notebook !! indicator = Some s_notebook /\
       (max_year s_app <> max_year s_notebook \/ min_year s_app <> min_year s_notebook)).
Proof.
  intros (kind & laws & df & si & sel & sy & sa & sn & ind & s1 & s2
          & Ha & Hb & La & Lb & Hd).
  rewrite (calculate_statistics_agree _ sel
             (NoDup_labels_get_national_statistics df si sy)) in Ha.
  rewrite Ha in Hb. injection Hb as <-. rewrite La in Lb. injection Lb as <-.
  destruct Hd as [Hd | Hd]; apply Hd; reflexivity.
Qed.

(** * The loading claims *)

(** C3. A row whose [Code_dep] field is the quoted text ["12"] followed
    by a line break passes the filter [^[0-9]{2}$] (the [$] matches
    before a final line break) and the range check, in both scripts: the
    loaded set holds a department code of three characters. *)
Theorem C3_code_with_line_break (to_numeric to_int : string -> option Z) :
  App.load_data to_numeric to_int
    (single_file "serieschrono-datagouv.csv" quoted_code_frame)
  = Loaded [mkRecord 2016 "Ain" 10 "Vol" code_12_newline] /\
  Notebook.load_data to_numeric
    (single_file "serieschrono-datagouv.csv" quoted_code_frame)
  = Loaded [Notebook.mkRow (Num 2016) "Ain" 10 "Vol" code_12_newline] /\
  String.length code_12_newline = 3%nat.
Proof. repeat split. Qed.



(** * Further properties of the two scripts *)

(** ** The national series *)

Lemma string_leb_ltb (a b : string) :
  String.leb a b = true -> a <> b -> String.ltb a b = true.
Proof.
  unfold String.leb, String.ltb. intros Hle Hne.
  destruct (String.compare a b) eqn:E; [| reflexivity | discriminate].
  apply String.compare_eq_iff in E. contradiction.
Qed.

Lemma List_filter_sorted {X} (Rel : relation X) (p : X -> bool) (l : list X) :
  StronglySorted Rel l -> StronglySorted Rel (List.filter p l).
Proof.
  induction 1 as [| a l Hs IH Ha]; simpl; [constructor |].
  destruct (p a); [| exact IH]. constructor; [exact IH |].
  rewrite List.Forall_forall in *. intros x Hx. apply filter_In in Hx. apply Ha, Hx.
Qed.

Lemma List_filter_map_keys {X Y} (g : X -> Y) (p : X -> bool) (ks : list X) :
  List.filter (fun kv => p (fst kv)) (map (fun k => (k, g k)) ks)
  = map (fun k => (k, g k)) (List.filter p ks).
Proof.
  induction ks as [| k ks IH]; simpl; [reflexivity |].
  destruct (p k); simpl; rewrite IH; reflexivity.
Qed.

Section GroupByFilter.
Context {R K : Type} `{KeyOrderLaws K}.
Variable key : R -> K.
Variable val : R -> Z.

(** Grouping the rows whose key satisfies [p] gives the groups whose key
    satisfies [p], with the same sums. *)
Lemma groupby_sum_filter (p : K -> bool) (l : list R) :
  groupby_sum key val (List.filter (fun r => p (key r)) l)
  = List.filter (fun kv => p (fst kv)) (groupby_sum key val l).
Proof.
  unfold groupby_sum. rewrite List_filter_map_keys.
  assert (Hk : sort_keys (unique (map key (List.filter (fun r => p (key r)) l)))
               = List.filter p (sort_keys (unique (map key l)))).
  { assert (Ha : AntiSymm eq (fun a b : K => kleb a b = true))
      by (intros a b; apply kleb_antisym).
    apply (StronglySorted_unique (fun a b : K => kleb a b = true)).
    - apply sort_keys_sorted.
    - apply List_filter_sorted, sort_keys_sorted.
    - apply Permutation.NoDup_Permutation.
      + apply NoDup_sort_keys, NoDup_unique.
      + apply List.NoDup_filter, NoDup_sort_keys, NoDup_unique.
      + intros k. rewrite In_sort_keys, In_unique, filter_In, In_sort_keys, In_unique.
        rewrite !in_map_iff. split.
        * intros (r & <- & Hr). apply filter_In in Hr. destruct Hr as [Hr Hp].
          split; [exists r; auto | exact Hp].
        * intros [(r & <- & Hr) Hp]. exists r. split; [reflexivity |].
          apply filter_In. auto. }
  rewrite Hk. apply map_ext_in. intros k Hk'. apply filter_In in Hk'.
  destruct Hk' as [_ Hp]. clear Hk. do 3 f_equal. unfold group.
  induction l as [| r l IH]; simpl; [reflexivity |].
  destruct (p (key r)) eqn:Hr; simpl.
  - destruct (keqb (key r) k); [f_equal |]; exact IH.
  - destruct (keqb (key r) k) eqn:E; [| exact IH].
    apply keqb_eq in E. congruence.
Qed.
End GroupByFilter.

Lemma national_rows_grouped (df : list Record_) (selected_indicators : list string)
    (selected_years : list Z) :
  rows (get_national_statistics df selected_indicators selected_years)
  = map national_row
        (groupby_sum (fun r => (Unite_temps r, Indicateur r)) Valeurs
           (matching selected_indicators selected_years df)).
Proof. apply get_national_statistics_rows. Qed.

(** A row of the national series, read on the record set. *)
Lemma In_national_rows (df : list Record_) (selected_indicators : list string)
    (selected_years : list Z) (n : NatRow) :
  In n (rows (get_national_statistics df selected_indicators selected_years)) <->
  (exists r, In r (matching selected_indicators selected_years df) /\
             Unite_temps r = n_Unite_temps n /\ Indicateur r = n_Indicateur n) /\
  n_Valeurs n =
  sumZ (map Valeurs
          (filter (fun r => Indicateur r = n_Indicateur n /\ Unite_temps r = n_Unite_temps n)
             (matching selected_indicators selected_years df))).
Proof.
  rewrite national_rows_grouped.
  set (sel := matching selected_indicators selected_years df).
  set (key := fun r : Record_ => (Unite_temps r, Indicateur r)).
  assert (Hg : group key (n_Unite_temps n, n_Indicateur n) sel
               = filter (fun r => Indicateur r = n_Indicateur n
                                  /\ Unite_temps r = n_Unite_temps n) sel).
  { apply List_filter_decide. intros r. subst key. cbn.
    rewrite andb_true_iff, Z.eqb_eq, String.eqb_eq. tauto. }
  rewrite <- Hg. destruct n as [y i v]. cbn [n_Unite_temps n_Indicateur n_Valeurs].
  rewrite in_map_iff. split.
  - intros ([[y' i'] v'] & [= -> -> ->] & Hin). apply In_groupby_sum in Hin.
    destruct Hin as [Hk ->]. split; [| reflexivity].
    apply in_map_iff in Hk. destruct Hk as (r & [= <- <-] & Hr). eauto.
  - intros [(r & Hr & <- & <-) ->]. exists ((Unite_temps r, Indicateur r), 
      sumZ (map Valeurs (group key (Unite_temps r, Indicateur r) sel))).
    split; [reflexivity |]. apply In_groupby_sum. split; [| reflexivity].
    apply (in_map key), Hr.
Qed.

Lemma NoDup_national_keys (df : list Record_) (selected_indicators : list string)
    (selected_years : list Z) :
  List.NoDup (map (fun n => (n_Unite_temps n, n_Indicateur n))
                (rows (get_national_statistics df selected_indicators selected_years))).
Proof.
  rewrite national_rows_grouped, map_map.
  rewrite (map_ext _ fst) by (intros [[? ?] ?]; reflexivity).
  apply NoDup_groupby_sum_keys.
Qed.

Lemma national_rows_ascending (df : list Record_) (selected_indicators : list string)
    (selected_years : list Z) :
  StronglySorted
    (fun a b => n_Unite_temps a < n_Unite_temps b \/
                (n_Unite_temps a = n_Unite_temps b /\
                 String.ltb (n_Indicateur a) (n_Indicateur b) = true))
    (rows (get_national_statistics df selected_indicators selected_years)).
Proof.
  rewrite national_rows_grouped.
  eapply StronglySorted_fmap; [| apply groupby_sum_keys_ascending].
  intros [[y1 i1] v1] [[y2 i2] v2] [Hle Hne]. cbn in *.
  destruct (Z.eqb_spec y1 y2) as [-> | Hy].
  - right. split; [reflexivity |]. apply string_leb_ltb; [exact Hle | congruence].
  - left. apply Z.leb_le in Hle. lia.
Qed.

(** X1. Whatever the order of the rows of the record set, the
    national series comes out in ascending order of year and, within a
    year, in ascending order of indicator name, without two rows for the
    same year and indicator; its row labels are 0, 1, 2, ... *)
Theorem national_series_sorted (df : list Record_) (selected_indicators : list string)
    (selected_years : list Z) :
  let national_data := get_national_statistics df selected_indicators selected_years in
  StronglySorted
    (fun a b => n_Unite_temps a < n_Unite_temps b \/
                (n_Unite_temps a = n_Unite_temps b /\
                 String.ltb (n_Indicateur a) (n_Indicateur b) = true))
    (rows national_data) /\
  map fst national_data = seq 0 (length national_data).
Proof.
  cbv zeta. split.
  - apply national_rows_ascending.
  - unfold get_national_statistics. rewrite labels_reset_index.
    unfold reset_index. rewrite length_combine, length_seq, Nat.min_id. reflexivity.
Qed.




(** X3. Narrowing the selection does not change the figures
    that remain: the national series of a selection contained in
    another is the national series of the larger one, restricted to the
    indicators and years of the smaller. *)
Theorem national_series_restrict (df : list Record_)
    (selected_indicators selected_indicators' : list string)
    (selected_years selected_years' : list Z) :
  (forall i, In i selected_indicators' -> In i selected_indicators) ->
  (forall y, In y selected_years' -> In y selected_years) ->
  rows (get_national_statistics df selected_indicators' selected_years')
  = filter (fun n => n_Indicateur n ∈ selected_indicators'
                     /\ n_Unite_temps n ∈ selected_years')
      (rows (get_national_statistics df selected_indicators selected_years)).
Proof.
  intros Hi Hy. rewrite !national_rows_grouped.
  set (key := fun r : Record_ => (Unite_temps r, Indicateur r)).
  set (p := fun k : Z * string => isin (snd k) selected_indicators'
                                  && isin (fst k) selected_years').
  assert (Hm : matching selected_indicators' selected_years' df
               = List.filter (fun r => p (key r))
                   (matching selected_indicators selected_years df)).
  { rewrite <- !filtered_df_matching.
    induction df as [| r df IH]; [reflexivity |].
    cbn [List.filter].
    assert (Himp : isin (Indicateur r) selected_indicators'
                   && isin (Unite_temps r) selected_years' = true ->
                   isin (Indicateur r) selected_indicators
                   && isin (Unite_temps r) selected_years = true).
    { rewrite !andb_true_iff, !isin_In. intros [? ?]. auto. }
    destruct (isin (Indicateur r) selected_indicators
              && isin (Unite_temps r) selected_years) eqn:Ea.
    - cbn [List.filter].
      change (p (key r)) with (isin (Indicateur r) selected_indicators'
                               && isin (Unite_temps r) selected_years').
      destruct (isin (Indicateur r) selected_indicators'
                && isin (Unite_temps r) selected_years'); [f_equal |]; exact IH.
    - destruct (isin (Indicateur r) selected_indicators'
                && isin (Unite_temps r) selected_years');
        [specialize (Himp eq_refl); discriminate | exact IH]. }
  rewrite Hm, (groupby_sum_filter key Valeurs p).
  rewrite <- (List_filter_decide
                (fun n => isin (n_Indicateur n) selected_indicators'
                          && isin (n_Unite_temps n) selected_years'))
    by (intros n; rewrite andb_true_iff, !isin_In, !list_elem_of_In; reflexivity).
  generalize (groupby_sum key Valeurs (matching selected_indicators selected_years df)).
  intros gs. induction gs as [| [[y i] v] gs IH]; [reflexivity |].
  cbn. subst p. cbn. destruct (isin i selected_indicators' && isin y selected_years');
    cbn; rewrite IH; reflexivity.
Qed.

Lemma national_series_restrict_witness :
  rows (get_national_statistics example_df ["Vol"] [2017])
  = filter (fun n => n_Indicateur n ∈ ["Vol"] /\ n_Unite_temps n ∈ [2017])
      (rows (get_national_statistics example_df ["Vol"; "Cam"] [2016; 2017])).
Proof.
  apply national_series_restrict.
  - intros i. simpl. tauto.
  - intros y. simpl. tauto.
Defined.

(** ** The statistics, read on the record set *)




Lemma two_elements_length {X} (l : list X) (a b : X) :
  In a l -> In b l -> a <> b -> (1 < length l)%nat.
Proof.
  destruct l as [| x [| y l]]; simpl; [tauto | | lia].
  intros [<- | []] [<- | []] Hne. contradiction.
Qed.

Section StatsOnRecords.
Context {kind : SortKind} {laws : SortKindLaws kind}.
Variable df : list Record_.
Variable selected_indicators : list string.
Variable selected_years : list Z.

Let national_data := get_national_statistics df selected_indicators selected_years.
Let selected := matching selected_indicators selected_years df.

(** The rows of [indicator_data], for the national series. *)
Lemma In_indicator_rows (indicator : string) (n : NatRow) :
  In n (rows (indicator_rows national_data indicator)) <->
  In n (rows national_data) /\ n_Indicateur n = indicator.
Proof.
  pose proof (Permutation_map snd (indicator_rows_Permutation national_data indicator))
    as Hp.
  transitivity (In n (map snd (List.filter
                  (fun x => String.eqb (n_Indicateur (snd x)) indicator) national_data))).
  - unfold rows. split; apply Permutation_in; [| symmetry]; exact Hp.
  - unfold rows.
    rewrite <- (filter_map_commute snd (fun m => String.eqb (n_Indicateur m) indicator)).
    rewrite filter_In, String.eqb_eq. reflexivity.
Qed.

(** A year of the indicator among the matching rows has its row in
    [indicator_data], with the total of the year. *)
Lemma indicator_rows_of_record (indicator : string) (r : Record_) :
  In r selected -> Indicateur r = indicator ->
  In (mkNat (Unite_temps r) indicator
        (yearly_total selected_indicators selected_years df indicator (Unite_temps r)))
     (rows (indicator_rows national_data indicator)).
Proof.
  intros Hr Hi. apply In_indicator_rows. split; [| reflexivity].
  apply In_national_rows. cbn. split; [| reflexivity]. exists r. auto.
Qed.




(** More than one row in [indicator_data]: two matching rows of the
    indicator with different years, and conversely. *)
Lemma indicator_rows_two_years (indicator : string) :
  (1 < length (indicator_rows national_data indicator))%nat <->
  exists r1 r2, In r1 selected /\ In r2 selected /\
                Indicateur r1 = indicator /\ Indicateur r2 = indicator /\
                Unite_temps r1 <> Unite_temps r2.
Proof.
  split.
  - intros Hlen.
    destruct (two_rows_two_years national_data indicator
                (NoDup_national_keys df selected_indicators selected_years) Hlen)
      as (n1 & n2 & H1 & H2 & I1 & I2 & Hne).
    apply In_national_rows in H1, H2.
    destruct H1 as [(r1 & Hr1 & Hy1 & Hi1) _], H2 as [(r2 & Hr2 & Hy2 & Hi2) _].
    exists r1, r2. repeat split; try assumption; congruence.
  - intros (r1 & r2 & H1 & H2 & I1 & I2 & Hne).
    pose proof (indicator_rows_of_record indicator r1 H1 I1) as N1.
    pose proof (indicator_rows_of_record indicator r2 H2 I2) as N2.
    unfold rows in N1, N2.
    rewrite <- (length_map snd). eapply two_elements_length; [exact N1 | exact N2 |].
    intros [= E _]. contradiction.
Qed.

End StatsOnRecords.

(** X4. For either script and any record set and selection, the
    statistics computed on the national series have an entry for an
    indicator exactly when it is in the list passed to the calculator
    and two matching rows of it bear different years.  When all the
    matching rows bear the same year (a one-year period, for instance)
    the dictionary is empty. *)
Theorem statistics_entries {kind : SortKind} (laws : SortKindLaws kind)
    (calc : Frame NatRow -> list string -> option (gmap string IndicatorStats))
    (df : list Record_) (selected_indicators : list string) (selected_years : list Z)
    (indicators : list string) :
  calc = App.calculate_statistics \/ calc = Notebook.calculate_statistics ->
  exists stats,
    calc (get_national_statistics df selected_indicators selected_years) indicators
    = Some stats /\
    (forall indicator,
       is_Some (stats !! indicator) <->
       In indicator indicators /\
       exists r1 r2,
         In r1 (matching selected_indicators selected_years df) /\
         In r2 (matching selected_indicators selected_years df) /\
         Indicateur r1 = indicator /\ Indicateur r2 = indicator /\
         Unite_temps r1 <> Unite_temps r2) /\
    ((forall r1 r2,
        In r1 (matching selected_indicators selected_years df) ->
        In r2 (matching selected_indicators selected_years df) ->
        Unite_temps r1 = Unite_temps r2) ->
     stats = ∅).
Proof.
  intros Hcalc.
  destruct (scripts_calculators calc Hcalc) as (ymax & ymin & -> & Hmax & Hmin).
  set (nd := get_national_statistics df selected_indicators selected_years).
  destruct (calculate_statistics_with_spec ymax ymin Hmax Hmin nd indicators)
    as (stats & Hs & Hspec).
  assert (Hiff : forall indicator,
            is_Some (stats !! indicator) <->
            In indicator indicators /\
            (1 < length (indicator_rows nd indicator))%nat).
  { intros indicator. rewrite Hspec, <- isin_In, <- Nat.ltb_lt.
    destruct (isin indicator indicators);
      destruct (1 <? length (indicator_rows nd indicator))%nat eqn:Hlen; cbn [andb].
    - split; [auto | intros _].
      apply indicator_stats_total; [assumption .. |].
      intros E. rewrite E in Hlen. discriminate.
    - split; [intros [? ?]; discriminate | intros [_ ?]; discriminate].
    - split; [intros [? ?]; discriminate | intros [? _]; discriminate].
    - split; [intros [? ?]; discriminate | intros [? _]; discriminate]. }
  exists stats. split; [exact Hs |]. split.
  - intros indicator. rewrite Hiff. subst nd.
    rewrite indicator_rows_two_years. reflexivity.
  - intros Hone. apply map_empty. intros indicator.
    destruct (stats !! indicator) as [s |] eqn:E; [exfalso | reflexivity].
    assert (Hsome : is_Some (stats !! indicator)) by (rewrite E; eauto).
    apply Hiff in Hsome. destruct Hsome as [_ Hlen]. subst nd.
    apply indicator_rows_two_years in Hlen.
    destruct Hlen as (r1 & r2 & H1 & H2 & _ & _ & Hne). apply Hne, Hone; assumption.
Qed.

Lemma statistics_entries_witness :
  exists stats,
    App.calculate_statistics (kind := insertion_kind)
      (get_national_statistics example_df ["Vol"] [2016]) ["Vol"] = Some stats /\
    stats = ∅.
Proof.
  destruct (statistics_entries insertion_kind_laws App.calculate_statistics
              example_df ["Vol"] [2016] ["Vol"] (or_introl eq_refl))
    as (stats & Hs & _ & Hone).
  exists stats. split; [exact Hs |]. apply Hone.
  intros r1 r2 H1 H2. vm_compute in H1, H2.
  destruct H1 as [<- | [<- | []]], H2 as [<- | [<- | []]]; reflexivity.
Defined.







(** ** The departmental ranking and what [main] shows of it *)

Section Ranking.
Context {kind : SortKind} {laws : SortKindLaws kind}.
Variable df : list Record_.
Variable selected_indicator : string.
Variable selected_year : Z.

Let selected := matching_exactly selected_indicator selected_year df.

Lemma ranking_Permutation (ranking : Frame DeptRow) :
  create_departmental_analysis df selected_indicator selected_year = Some ranking ->
  Permutation (rows ranking)
    (map (fun kv => mkDept (fst kv) (snd kv))
       (groupby_sum Zone_geographique Valeurs selected)).
Proof.
  intros E. apply create_departmental_analysis_inv in E. subst ranking.
  etransitivity; [unfold rows; apply Permutation_map, sort_values_Permutation |].
  pose proof (rows_reset_index (map (fun kv => mkDept (fst kv) (snd kv))
                (groupby_sum Zone_geographique Valeurs
                   (matching_exactly selected_indicator selected_year df)))) as Er.
  unfold rows in Er. rewrite Er. reflexivity.
Qed.

Lemma ranking_zones_Permutation (ranking : Frame DeptRow) :
  create_departmental_analysis df selected_indicator selected_year = Some ranking ->
  Permutation (map d_Zone_geographique (rows ranking))
    (zones_of selected_indicator selected_year df).
Proof.
  intros E. rewrite (ranking_Permutation ranking E), map_map. cbn [d_Zone_geographique].
  change (map (fun kv : string * Z => fst kv)) with (map (@fst string Z)).
  apply Permutation.NoDup_Permutation.
  - apply NoDup_groupby_sum_keys.
  - apply NoDup_ListNoDup, NoDup_remove_dups.
  - intros z. rewrite In_groupby_sum_keys. unfold zones_of.
    rewrite <- !list_elem_of_In, elem_of_remove_dups. reflexivity.
Qed.


Lemma ranking_descending (ranking : Frame DeptRow) :
  create_departmental_analysis df selected_indicator selected_year = Some ranking ->
  StronglySorted (fun a b => d_Valeurs b <= d_Valeurs a) (rows ranking).
Proof.
  intros E. apply create_departmental_analysis_inv in E. subst ranking. unfold rows.
  eapply (StronglySorted_fmap snd); [| apply (sort_values_sorted d_Valeurs false)].
  intros x y H. exact H.
Qed.
End Ranking.

(** X8. A ranking returned by
    [create_departmental_analysis] is never empty and has exactly one
    row for each zone that has a row of the indicator and the year in
    the record set, and no other row: a zone is never listed twice, and
    there are as many rows as such zones. *)
Theorem ranking_zones {kind : SortKind} (laws : SortKindLaws kind)
    (df : list Record_) (selected_indicator : string) (selected_year : Z)
    (ranking : Frame DeptRow) :
  create_departmental_analysis df selected_indicator selected_year = Some ranking ->
  ranking <> [] /\
  List.NoDup (map d_Zone_geographique (rows ranking)) /\
  (forall zone,
     In zone (map d_Zone_geographique (rows ranking)) <->
     exists r, In r (matching_exactly selected_indicator selected_year df)
               /\ Zone_geographique r = zone) /\
  length ranking = length (zones_of selected_indicator selected_year df).
Proof.
  intros E.
  pose proof (ranking_zones_Permutation df selected_indicator selected_year ranking E)
    as Hp.
  assert (Hzones : forall zone,
            In zone (zones_of selected_indicator selected_year df) <->
            exists r, In r (matching_exactly selected_indicator selected_year df)
                      /\ Zone_geographique r = zone).
  { intros zone. unfold zones_of.
    rewrite <- list_elem_of_In, elem_of_remove_dups, list_elem_of_In, in_map_iff.
    split; intros (r & H1 & H2); exists r; auto. }
  assert (Hlen : length ranking = length (zones_of selected_indicator selected_year df)).
  { rewrite <- (Permutation_length Hp). unfold rows. rewrite !length_map. reflexivity. }
  split; [| split; [| split]].
  - intros ->. unfold create_departmental_analysis in E.
    rewrite dept_data_matching in E.
    destruct (matching_exactly selected_indicator selected_year df) as [| r l];
      [discriminate |].
    assert (Hin : In (Zone_geographique r)
                    (zones_of selected_indicator selected_year df)).
    { apply Hzones. exists r. split; [left |]; reflexivity. }
    destruct (zones_of selected_indicator selected_year df); [destruct Hin | discriminate].
  - eapply Permutation_NoDup; [symmetry; exact Hp |].
    apply NoDup_ListNoDup, NoDup_remove_dups.
  - intros zone. rewrite <- Hzones. split; apply Permutation_in; [| symmetry]; exact Hp.
  - exact Hlen.
Qed.

Lemma ranking_zones_witness :
  exists ranking,
    create_departmental_analysis (kind := insertion_kind) many_zones_df "Vol" 2016
    = Some ranking /\
    length ranking = length (zones_of "Vol" 2016 many_zones_df).
Proof.
  destruct (create_departmental_analysis (kind := insertion_kind) many_zones_df "Vol"
              2016) as [ranking |] eqn:E; [| vm_compute in E; discriminate].
  exists ranking. split; [reflexivity |].
  apply (ranking_zones insertion_kind_laws many_zones_df "Vol" 2016 ranking E).
Defined.

(** X9. The bar chart of the departments shows the first fifteen
    rows of the ranking, or all of them when there are fewer: as many
    bars as there are zones with data, up to fifteen, and no zone left
    out has a larger total than a zone shown. *)
Theorem top_15_largest {kind : SortKind} (laws : SortKindLaws kind)
    (df : list Record_) (selected_indicator : string) (selected_year : Z)
    (ranking : Frame DeptRow) :
  create_departmental_analysis df selected_indicator selected_year = Some ranking ->
  let shown := rows (df_head 15 ranking) in
  length shown
  = Nat.min 15 (length (zones_of selected_indicator selected_year df)) /\
  (forall a, In a shown -> In a (rows ranking)) /\
  (forall a b, In a shown -> In b (rows ranking) -> ~ In b shown ->
     d_Valeurs b <= d_Valeurs a).
Proof.
  intros E shown.
  pose proof (ranking_descending df selected_indicator selected_year ranking E) as Hs.
  pose proof (ranking_zones_Permutation df selected_indicator selected_year ranking E)
    as Hp.
  assert (Hsplit : rows ranking = shown ++ map snd (skipn 15 ranking)).
  { unfold shown, rows, df_head. rewrite <- map_app, firstn_skipn. reflexivity. }
  split; [| split].
  - unfold shown, rows, df_head. rewrite length_map, length_firstn.
    rewrite <- (Permutation_length Hp). unfold rows. rewrite !length_map. reflexivity.
  - intros a Ha. rewrite Hsplit. apply in_or_app. left. exact Ha.
  - intros a b Ha Hb Hnb. rewrite Hsplit in Hb, Hs.
    apply in_app_or in Hb. destruct Hb as [Hb | Hb]; [contradiction |].
    apply (StronglySorted_app_1_elem_of _ _ _ a b Hs); apply list_elem_of_In; assumption.
Qed.

Lemma top_15_largest_witness :
  exists ranking,
    create_departmental_analysis (kind := insertion_kind) many_zones_df "Vol" 2016
    = Some ranking /\
    length (rows (df_head 15 ranking)) = 15%nat.
Proof.
  destruct (create_departmental_analysis (kind := insertion_kind) many_zones_df "Vol"
              2016) as [ranking |] eqn:E; [| vm_compute in E; discriminate].
  exists ranking. split; [reflexivity |].
  destruct (top_15_largest insertion_kind_laws many_zones_df "Vol" 2016 ranking E)
    as [Hlen _].
  exact Hlen.
Defined.



(** ** The figures of the overview *)

Lemma foldl_max_spec (xs : list Z) (x : Z) :
  In (foldl Z.max x xs) (x :: xs) /\
  forall y, In y (x :: xs) -> y <= foldl Z.max x xs.
Proof.
  revert x. induction xs as [| a xs IH]; intros x; cbn [foldl].
  - split; [left; reflexivity |]. intros y [<- | []]. lia.
  - destruct (IH (Z.max x a)) as [Hin Hub]. split.
    + destruct Hin as [Hin | Hin]; [| right; right; exact Hin].
      rewrite <- Hin. destruct (Z.max_spec x a) as [[_ ->] | [_ ->]]; cbn; auto.
    + intros y Hy.
      assert (Hm : Z.max x a <= foldl Z.max (Z.max x a) xs) by (apply Hub; left; reflexivity).
      destruct Hy as [<- | [<- | Hy]]; [lia | lia | apply Hub; right; exact Hy].
Qed.

Lemma foldl_min_spec (xs : list Z) (x : Z) :
  In (foldl Z.min x xs) (x :: xs) /\
  forall y, In y (x :: xs) -> foldl Z.min x xs <= y.
Proof.
  revert x. induction xs as [| a xs IH]; intros x; cbn [foldl].
  - split; [left; reflexivity |]. intros y [<- | []]. lia.
  - destruct (IH (Z.min x a)) as [Hin Hlb]. split.
    + destruct Hin as [Hin | Hin]; [| right; right; exact Hin].
      rewrite <- Hin. destruct (Z.min_spec x a) as [[_ ->] | [_ ->]]; cbn; auto.
    + intros y Hy.
      assert (Hm : foldl Z.min (Z.min x a) xs <= Z.min x a) by (apply Hlb; left; reflexivity).
      destruct Hy as [<- | [<- | Hy]]; [lia | lia | apply Hlb; right; exact Hy].
Qed.

Lemma py_max_spec (xs : list Z) (m : Z) :
  py_max xs = Some m -> In m xs /\ forall y, In y xs -> y <= m.
Proof.
  destruct xs as [| x xs]; [discriminate |]. intros [= <-]. apply foldl_max_spec.
Qed.

Lemma py_min_spec (xs : list Z) (m : Z) :
  py_min xs = Some m -> In m xs /\ forall y, In y xs -> m <= y.
Proof.
  destruct xs as [| x xs]; [discriminate |]. intros [= <-]. apply foldl_min_spec.
Qed.











(** ** The comparison chart *)

Section ComparisonChartFacts.
Variable colors : list string.
Variable trace_name : string -> string.
Hypothesis colors_not_empty : colors <> [].


End ComparisonChartFacts.




(** ** Loading *)

(** X14. In both scripts, every record of a loaded set has a
    department code made of two digits, possibly followed by one line
    break, that lies between ["01"] and ["95"] in code-point order: the
    Corsican codes ["2A"] and ["2B"], which are not two digits, are
    never loaded, nor is ["00"] or a code above ["95"]. *)
Theorem loaded_codes (to_numeric to_int : string -> option Z)
    (read_csv : string -> ReadResult) :
  let well_formed code :=
    (exists a b,
       is_digit a = true /\ is_digit b = true /\
       (code = String a (String b EmptyString) \/
        code = String a (String b (String newline EmptyString)))) /\
    String.leb "01" code = true /\ String.leb code "95" = true /\
    code <> "2A" /\ code <> "2B" /\ code <> "00" in
  (forall df, App.load_data to_numeric to_int read_csv = Loaded df ->
     forall r, In r df -> well_formed (Code_dep r)) /\
  (forall df, Notebook.load_data to_numeric read_csv = Loaded df ->
     forall r, In r df -> well_formed (Notebook.nb_Code_dep r)).
Proof.
  intros well_formed.
  assert (Hwf : forall code,
            match_two_digits code = true /\ between "01" "95" code = true ->
            well_formed code).
  { intros code [Hm Hb]. unfold between in Hb. apply andb_true_iff in Hb.
    destruct Hb as [Hlo Hhi]. split; [apply match_two_digits_shape, Hm |].
    split; [exact Hlo |]. split; [exact Hhi |].
    repeat split; intros ->; discriminate. }
  split; intros df Hload r Hr; apply Hwf.
  - apply (App_load_data_codes to_numeric to_int read_csv df Hload r Hr).
  - apply (Notebook_load_data_codes to_numeric read_csv df Hload r Hr).
Qed.

Lemma extract_dep_two_digits (zone d : string) :
  extract_dep zone = Some d -> match_two_digits d = true ->
  exists a b rest,
    zone = String a (String b rest) /\ d = String a (String b EmptyString) /\
    is_digit a = true /\ is_digit b = true /\
    match rest with String c _ => is_digit c = false | EmptyString => True end.
Proof.
  destruct zone as [| a [| b rest]]; try discriminate. cbn [extract_dep].
  destruct (is_digit a) eqn:Ha; [| discriminate].
  destruct (is_digit b) eqn:Hb; [| discriminate]. cbn [andb].
  destruct rest as [| c rest].
  - intros [= <-] _. exists a, b, EmptyString. auto.
  - destruct (is_digit c) eqn:Hc.
    + intros [= <-]. cbn. rewrite Ha, Hb. cbn.
      intros H. apply Ascii.eqb_eq in H. subst c. discriminate.
    + intros [= <-] _. exists a, b, (String c rest). auto.
Qed.

(** X15. In [app.py], when the file that is read has no
    column [Code_dep], the code of every loaded record is the first two
    characters of its zone name, which are two digits not followed by a
    third digit, and lies between ["01"] and ["95"]: the lines whose
    zone name begins with three digits, or with fewer than two, are
    left out. *)
Theorem derived_codes (to_numeric to_int : string -> option Z)
    (read_csv : string -> ReadResult) (raw : CsvFrame) (df : list Record_) :
  App.try_paths read_csv App.possible_paths = Parsed raw ->
  ~ In "Code_dep" (columns raw) ->
  App.load_data to_numeric to_int read_csv = Loaded df ->
  forall r, In r df ->
    exists a b rest,
      Zone_geographique r = String a (String b rest) /\
      Code_dep r = String a (String b EmptyString) /\
      is_digit a = true /\ is_digit b = true /\
      match rest with String c _ => is_digit c = false | EmptyString => True end /\
      between "01" "95" (Code_dep r) = true.
Proof.
  intros Htry Hno. unfold App.load_data. rewrite Htry. unfold App.clean.
  destruct (List.filter _ App.required_columns); [| discriminate].
  assert (Hcol : App.has_column raw "Code_dep" = false).
  { destruct (App.has_column raw "Code_dep") eqn:E; [| reflexivity].
    apply has_column_In in E. contradiction. }
  rewrite Hcol. cbv zeta. cbn [negb].
  match goal with |- context [mapM ?f ?l] => destruct (mapM f l) as [records |] eqn:Hm end;
    [| discriminate].
  intros [= <-] r Hr.
  destruct (mapM_In _ _ _ r Hm Hr) as (sel & Hsel & Hrec).
  apply filter_In in Hsel. destruct Hsel as [Hsel Hbetween].
  apply in_map_iff in Hsel. destruct Hsel as (sel4 & <- & Hsel4).
  apply filter_In in Hsel4. destruct Hsel4 as [Hsel3 Hmatch].
  unfold dropna in Hsel3. apply filter_In in Hsel3. destruct Hsel3 as [Hsel3 _].
  apply in_map_iff in Hsel3. destruct Hsel3 as (sel2 & <- & Hsel2).
  apply filter_In in Hsel2. destruct Hsel2 as [Hsel2 _].
  apply in_map_iff in Hsel2. destruct Hsel2 as (c & <- & _).
  unfold App.code_matches in Hmatch. unfold App.code_between in Hbetween.
  unfold App.to_record in Hrec.
  cbn [App.set_Code_dep App.set_Valeurs s_Code_dep s_Unite_temps
       s_Zone_geographique s_Valeurs s_Indicateur] in *.
  unfold App.derived_code in *.
  destruct (c_Zone_geographique c) as [zone |]; [| discriminate].
  destruct (extract_dep zone) as [d |] eqn:Hd; [| discriminate].
  cbn [App.zfill_cell] in *. rewrite (zfill_two_digits d Hmatch) in *.
  destruct (App.astype_int to_int (c_Unite_temps c)); [| discriminate].
  destruct (App.coerce to_numeric (c_Valeurs c)); try discriminate.
  destruct (c_Indicateur c); [| discriminate].
  cbn in Hrec. injection Hrec as <-. cbn [Code_dep Zone_geographique].
  destruct (extract_dep_two_digits zone d Hd Hmatch)
    as (a & b & rest & -> & -> & Ha & Hb & Hrest).
  exists a, b, rest. auto 10.
Qed.

Lemma derived_codes_witness :
  App.load_data read_number read_number
    (single_file "serieschrono-datagouv.csv" zone_prefixed_frame)
  = Loaded [mkRecord 2016 "01-Ain" 10 "Vol" "01";
            mkRecord 2017 "75-Paris" 12 "Vol" "75"] /\
  exists a b rest,
    "75-Paris" = String a (String b rest) /\ "75" = String a (String b EmptyString).
Proof.
  assert (E : App.load_data read_number read_number
                (single_file "serieschrono-datagouv.csv" zone_prefixed_frame)
              = Loaded [mkRecord 2016 "01-Ain" 10 "Vol" "01";
                        mkRecord 2017 "75-Paris" 12 "Vol" "75"])
    by reflexivity.
  split; [exact E |].
  assert (Hno : ~ In "Code_dep" (columns zone_prefixed_frame)).
  { simpl. intros [H | [H | [H | [H | []]]]]; discriminate. }
  destruct (derived_codes read_number read_number
              (single_file "serieschrono-datagouv.csv" zone_prefixed_frame)
              zone_prefixed_frame _ eq_refl Hno E
              (mkRecord 2017 "75-Paris" 12 "Vol" "75") (or_intror (or_introl eq_refl)))
    as (a & b & rest & Hz & Hc & _).
  exists a, b, rest. split; [exact Hz | exact Hc].
Defined.

Lemma loaded_codes_witness :
  App.load_data read_number read_number
    (single_file "serieschrono-datagouv.csv" text_year_frame)
  = Loaded [mkRecord 2016 "Ain" 10 "Vol" "01"; mkRecord 2017 "Paris" 12 "Vol" "75"] /\
  String.leb "01" "75" = true /\ String.leb "75" "95" = true.
Proof.
  assert (E : App.load_data read_number read_number
                (single_file "serieschrono-datagouv.csv" text_year_frame)
              = Loaded [mkRecord 2016 "Ain" 10 "Vol" "01";
                        mkRecord 2017 "Paris" 12 "Vol" "75"])
    by reflexivity.
  split; [exact E |].
  destruct (proj1 (loaded_codes read_number read_number
                     (single_file "serieschrono-datagouv.csv" text_year_frame))
              _ E (mkRecord 2017 "Paris" 12 "Vol" "75") (or_intror (or_introl eq_refl)))
    as (_ & Hlo & Hhi & _).
  split; [exact Hlo | exact Hhi].
Defined.

Lemma mapM_bind {X Y W} (f : X -> option Y) (g : Y -> option W) (l : list X) :
  mapM (fun x => f x ≫= g) l = mapM f l ≫= mapM g.
Proof.
  induction l as [| x l IH]; [reflexivity |].
  cbn [mapM]. rewrite IH.
  destruct (f x) as [y |]; cbn; [| reflexivity].
  destruct (mapM f l) as [ys |]; cbn; [reflexivity |].
  destruct (g y); reflexivity.
Qed.

Lemma to_record_cast_year (to_int : string -> option Z) (sel : Selected) :
  App.to_record to_int sel = Notebook.to_row sel ≫= cast_year to_int.
Proof.
  unfold App.to_record, Notebook.to_row, cast_year.
  destruct sel as [[| y | y] [zone |] [| v | v] [indicator |] [| c | c]];
    cbn; try reflexivity; destruct (to_int y); reflexivity.
Qed.

(** On the lines that pass the pattern, padding the code changes
    nothing: the two scripts keep the same lines. *)
Lemma code_filters_agree (l : list Selected) :
  List.filter App.code_between
    (map (App.set_Code_dep App.zfill_cell) (List.filter App.code_matches l))
  = List.filter Notebook.code_between (List.filter App.code_matches l).
Proof.
  induction l as [| r l IH]; [reflexivity |]. cbn [List.filter].
  destruct (App.code_matches r) eqn:Hm; [| exact IH].
  cbn [map List.filter]. rewrite IH.
  assert (Hr : App.set_Code_dep App.zfill_cell r = r).
  { destruct r as [y z v i c]. unfold App.code_matches in Hm. cbn in Hm.
    destruct c as [| n | s]; try discriminate.
    unfold App.set_Code_dep. cbn. rewrite (zfill_two_digits s Hm). reflexivity. }
  rewrite Hr.
  assert (Hb : App.code_between r = Notebook.code_between r).
  { unfold App.code_between, Notebook.code_between, App.code_matches in *.
    destruct (s_Code_dep r) as [| n | s]; try discriminate.
    rewrite (zfill_two_digits s Hm). reflexivity. }
  rewrite Hb. reflexivity.
Qed.

(** X16. When both scripts read the same file and it has the
    five columns, [app.py] loads exactly the lines that the notebook
    script loads, in the same order, with the year cast to an integer;
    it fails as a whole when the year of one of these lines cannot be
    cast, and when the notebook script fails. *)
Theorem loads_agree (to_numeric to_int : string -> option Z)
    (read_csv : string -> ReadResult) (raw : CsvFrame) :
  read_csv "data/serieschrono-datagouv.csv" = FileNotFoundError ->
  read_csv "serieschrono-datagouv.csv" = Parsed raw ->
  (forall col, In col Notebook.selected_columns -> In col (columns raw)) ->
  App.load_data to_numeric to_int read_csv
  = match Notebook.load_data to_numeric read_csv with
    | Loaded rows =>
      match mapM (cast_year to_int) rows with
      | Some df => Loaded df
      | None => Failed LoadException
      end
    | Failed e => Failed LoadException
    end.
Proof.
  intros Hfirst Hsecond Hcols.
  unfold App.load_data, Notebook.load_data. cbn [App.try_paths App.possible_paths].
  rewrite Hfirst, Hsecond. unfold App.clean, Notebook.clean.
  assert (Hhas : forall col, In col Notebook.selected_columns ->
                   App.has_column raw col = true).
  { intros col Hc. apply has_column_In, Hcols, Hc. }
  assert (Hall : forallb (App.has_column raw) Notebook.selected_columns = true).
  { apply forallb_forall. exact Hhas. }
  rewrite Hall. cbn [negb].
  assert (Hmissing : List.filter (fun col => negb (App.has_column raw col))
                       App.required_columns = []).
  { cbn [List.filter App.required_columns].
    rewrite !Hhas by (cbn; tauto). reflexivity. }
  rewrite Hmissing. cbv zeta.
  rewrite (Hhas "Code_dep") by (cbn; tauto). cbn [negb].
  destruct (is_object c_Code_dep (csv_rows raw)); cbn [negb]; [| reflexivity].
  rewrite code_filters_agree.
  rewrite (mapM_ext _ _ _ (to_record_cast_year to_int)), mapM_bind.
  destruct (mapM Notebook.to_row _) as [rows |]; reflexivity.
Qed.

Lemma loads_agree_witness :
  Notebook.load_data read_number
    (single_file "serieschrono-datagouv.csv" text_year_frame)
  = Loaded [Notebook.mkRow (Str "2016") "Ain" 10 "Vol" "01";
            Notebook.mkRow (Str "2017") "Paris" 12 "Vol" "75"] /\
  App.load_data read_number read_number
    (single_file "serieschrono-datagouv.csv" text_year_frame)
  = Loaded [mkRecord 2016 "Ain" 10 "Vol" "01"; mkRecord 2017 "Paris" 12 "Vol" "75"].
Proof.
  split; [reflexivity |].
  assert (Hcols : forall col, In col Notebook.selected_columns ->
                    In col (columns text_year_frame))
    by (intros col H; exact H).
  rewrite (loads_agree read_number read_number
             (single_file "serieschrono-datagouv.csv" text_year_frame)
             text_year_frame eq_refl eq_refl Hcols).
  reflexivity.
Defined.

(** X17. When the column [Code_dep] of the file holds no
    text at all (every code is a number or is missing, so that the
    parser types the column as numbers), neither script loads anything:
    the pattern filter needs a text column and its failure ends the
    load through the general handler. *)
Theorem numeric_code_column_fails (to_numeric to_int : string -> option Z)
    (read_csv : string -> ReadResult) (raw : CsvFrame) :
  (forall col, In col Notebook.selected_columns -> In col (columns raw)) ->
  csv_rows raw <> [] ->
  (forall r s, In r (csv_rows raw) -> c_Code_dep r <> Str s) ->
  (App.try_paths read_csv App.possible_paths = Parsed raw ->
   App.load_data to_numeric to_int read_csv = Failed LoadException) /\
  (read_csv "serieschrono-datagouv.csv" = Parsed raw ->
   Notebook.load_data to_numeric read_csv = Failed LoadException).
Proof.
  intros Hcols Hrows Hnum.
  assert (Hhas : forall col, In col Notebook.selected_columns ->
                   App.has_column raw col = true).
  { intros col Hc. apply has_column_In, Hcols, Hc. }
  assert (Hobj : is_object c_Code_dep (csv_rows raw) = false).
  { unfold is_object. destruct (csv_rows raw) as [| r0 l] eqn:E; [congruence |].
    rewrite <- E in *. clear E.
    destruct (existsb _ (csv_rows raw)) eqn:Ex; [| reflexivity].
    apply existsb_exists in Ex. destruct Ex as (r & Hr & Hs).
    destruct (c_Code_dep r) as [| z | s] eqn:Ec; try discriminate.
    exfalso. apply (Hnum r s Hr Ec). }
  split; intros Hread.
  - unfold App.load_data. rewrite Hread. unfold App.clean.
    assert (Hmissing : List.filter (fun col => negb (App.has_column raw col))
                         App.required_columns = []).
    { cbn [List.filter App.required_columns].
      rewrite !Hhas by (cbn; tauto). reflexivity. }
    rewrite Hmissing. cbv zeta.
    rewrite (Hhas "Code_dep") by (cbn; tauto). cbn [negb].
    rewrite Hobj. reflexivity.
  - unfold Notebook.load_data. rewrite Hread. unfold Notebook.clean.
    assert (Hall : forallb (App.has_column raw) Notebook.selected_columns = true).
    { apply forallb_forall. exact Hhas. }
    rewrite Hall. cbn [negb]. cbv zeta. rewrite Hobj. reflexivity.
Qed.

Lemma numeric_code_column_fails_witness :
  App.load_data read_number read_number
    (single_file "serieschrono-datagouv.csv" numeric_code_frame)
  = Failed LoadException /\
  Notebook.load_data read_number
    (single_file "serieschrono-datagouv.csv" numeric_code_frame)
  = Failed LoadException.
Proof.
  assert (Hcols : forall col, In col Notebook.selected_columns ->
                    In col (columns numeric_code_frame))
    by (intros col H; exact H).
  assert (Hrows : csv_rows numeric_code_frame <> []) by discriminate.
  assert (Hnum : forall r s, In r (csv_rows numeric_code_frame) ->
                   c_Code_dep r <> Str s).
  { intros r s [<- | [<- | []]]; discriminate. }
  destruct (numeric_code_column_fails read_number read_number
              (single_file "serieschrono-datagouv.csv" numeric_code_frame)
              numeric_code_frame Hcols Hrows Hnum) as [Happ Hnb].
  split; [apply Happ | apply Hnb]; reflexivity.
Defined.

Lemma try_paths_first (read_csv : string -> ReadResult)
    (before after : list string) (path : string) :
  (forall p, In p before -> read_csv p = FileNotFoundError) ->
  App.try_paths read_csv (before ++ path :: after)
  = match read_csv path with
    | FileNotFoundError => App.try_paths read_csv after
    | OtherError => OtherError
    | Parsed df => Parsed df
    end.
Proof.
  induction before as [| q before IH]; intros Hb; [reflexivity |].
  cbn [app App.try_paths]. rewrite (Hb q) by (left; reflexivity).
  apply IH. intros p Hp. apply Hb. right. exact Hp.
Qed.

(** X18. [load_data] of [app.py] reads one file only, the one
    at the first of the candidate paths that exists, whatever the later
    paths hold: when that file is parsed the outcome is that of its
    cleaning, and when reading it fails otherwise the load fails,
    without trying the later paths. *)
Theorem load_data_first_path (to_numeric to_int : string -> option Z)
    (read_csv : string -> ReadResult) (before after : list string) (path : string) :
  App.possible_paths = (before ++ path :: after)%list ->
  (forall p, In p before -> read_csv p = FileNotFoundError) ->
  read_csv path <> FileNotFoundError ->
  App.load_data to_numeric to_int read_csv
  = match read_csv path with
    | Parsed raw => App.clean to_numeric to_int raw
    | _ => Failed LoadException
    end.
Proof.
  intros Hpaths Hbefore Hfound. unfold App.load_data.
  rewrite Hpaths, (try_paths_first read_csv before after path Hbefore).
  destruct (read_csv path); [congruence | reflexivity | reflexivity].
Qed.

Lemma load_data_first_path_witness :
  App.load_data read_number read_number (unreadable_first text_year_frame)
  = Failed LoadException.
Proof.
  apply (load_data_first_path read_number read_number
           (unreadable_first text_year_frame) []
           ["serieschrono-datagouv.csv"; "../data/serieschrono-datagouv.csv"]
           "data/serieschrono-datagouv.csv" eq_refl).
  - intros p [].
  - discriminate.
Defined.

(** ** The pass of [main] *)

Lemma national_empty_iff (df : list Record_) (selected_indicators : list string)
    (selected_years : list Z) :
  get_national_statistics df selected_indicators selected_years = []
  <-> matching selected_indicators selected_years df = [].
Proof.
  rewrite <- (groupby_sum_nil (fun r => (Unite_temps r, Indicateur r)) Valeurs).
  pose proof (national_rows_grouped df selected_indicators selected_years) as E.
  unfold rows in E. split; intros H.
  - rewrite H in E. cbn in E. symmetry in E. apply map_eq_nil in E. exact E.
  - rewrite H in E. cbn in E. apply map_eq_nil in E. exact E.
Qed.






Lemma In_expand_years (a b y : Z) : In y (expand_years a b) <-> a <= y <= b.
Proof.
  unfold expand_years. rewrite <- list_elem_of_In, elem_of_seqZ. lia.
Qed.

Lemma firstn_not_nil {X} (n : nat) (l : list X) :
  l <> [] -> firstn (S n) l <> [].
Proof. destruct l; [congruence | discriminate]. Qed.

Lemma In_firstn {X} (n : nat) (l : list X) (x : X) : In x (firstn n l) -> In x l.
Proof.
  intros H. rewrite <- (firstn_skipn n l). apply in_or_app. left. exact H.
Qed.

(** X20. The choices that [main] of [app.py] proposes at first
    (the first three indicators in sorted order, or all of them, and
    the period from the least to the greatest year of the loaded set):
    computing them raises an exception exactly when the loaded set has
    no row.  Otherwise at least one indicator is proposed, each
    proposed indicator occurs in the set, the period leaves out no row
    of the set, and the national series of these choices has rows: the
    first pass does not stop on a lack of data. *)
Theorem default_selection_has_data (select_all : bool) (df : list Record_) :
  match default_selection select_all df with
  | None => df = []
  | Some (default_indicators, selected_years) =>
    df <> [] /\
    default_indicators <> [] /\
    (select_all = false -> (length default_indicators <= 3)%nat) /\
    (forall indicator, In indicator default_indicators ->
       exists r, In r df /\ Indicateur r = indicator) /\
    (select_all = true ->
     forall r, In r df -> In (Indicateur r) default_indicators) /\
    (forall r, In r df -> In (Unite_temps r) selected_years) /\
    get_national_statistics df default_indicators selected_years <> []
  end.
Proof.
  unfold default_selection.
  set (available_indicators := sort_keys (unique (map Indicateur df))).
  set (available_years := sort_keys (unique (map Unite_temps df))).
  assert (Hind : forall i, In i available_indicators <-> In i (map Indicateur df)).
  { intros i. unfold available_indicators. rewrite In_sort_keys, In_unique. reflexivity. }
  assert (Hyear : forall y, In y available_years <-> In y (map Unite_temps df)).
  { intros y. unfold available_years. rewrite In_sort_keys, In_unique. reflexivity. }
  assert (Hcase : df = [] \/ exists r0, In r0 df).
  { destruct df as [| r0 df']; [left; reflexivity | right; exists r0; left; reflexivity]. }
  destruct Hcase as [-> | [r0 Hr0]]; [reflexivity |].
  assert (Hdf : df <> []) by (intros ->; destruct Hr0).
  destruct (py_min available_years) as [lo |] eqn:Emin.
  2: { exfalso. assert (H0 : In (Unite_temps r0) available_years)
         by (apply Hyear, in_map, Hr0).
       destruct available_years; [destruct H0 | discriminate]. }
  destruct (py_max available_years) as [hi |] eqn:Emax.
  2: { exfalso. assert (H0 : In (Unite_temps r0) available_years)
         by (apply Hyear, in_map, Hr0).
       destruct available_years; [destruct H0 | discriminate]. }
  cbn [mbind option_bind].
  destruct (py_min_spec _ _ Emin) as [_ Hlo]. destruct (py_max_spec _ _ Emax) as [_ Hhi].
  set (default_indicators :=
         if select_all then available_indicators else firstn 3 available_indicators).
  assert (Havail : available_indicators <> []).
  { intros E. assert (H0 : In (Indicateur r0) available_indicators)
      by (apply Hind, in_map, Hr0).
    rewrite E in H0. destruct H0. }
  assert (Hsub : forall i, In i default_indicators -> In i available_indicators).
  { intros i. unfold default_indicators. destruct select_all; [auto | apply In_firstn]. }
  assert (Hnot_nil : default_indicators <> []).
  { unfold default_indicators. destruct select_all; [exact Havail |].
    apply firstn_not_nil, Havail. }
  assert (Hperiod : forall r, In r df -> In (Unite_temps r) (expand_years lo hi)).
  { intros r Hr. apply In_expand_years.
    assert (Hy : In (Unite_temps r) available_years) by (apply Hyear, in_map, Hr).
    split; [apply Hlo | apply Hhi]; exact Hy. }
  assert (Hocc : forall indicator, In indicator default_indicators ->
                   exists r, In r df /\ Indicateur r = indicator).
  { intros indicator Hi. apply Hsub, Hind, in_map_iff in Hi.
    destruct Hi as (r & <- & Hr). exists r. auto. }
  split; [exact Hdf |]. split; [exact Hnot_nil |]. split; [| split; [exact Hocc |]].
  - intros ->. unfold default_indicators. rewrite length_firstn. lia.
  - split; [| split; [exact Hperiod |]].
    + intros ->. intros r Hr. unfold default_indicators. apply Hind, in_map, Hr.
    + intros Hnil. apply national_empty_iff in Hnil.
      destruct default_indicators as [| i0 rest] eqn:Ed; [congruence |].
      destruct (Hocc i0 (or_introl eq_refl)) as (r & Hr & Hi).
      assert (Hin : r ∈ matching (i0 :: rest) (expand_years lo hi) df).
      { unfold matching. apply list_elem_of_filter. split; [| apply list_elem_of_In, Hr].
        split; [rewrite Hi; left | apply list_elem_of_In, Hperiod, Hr]. }
      rewrite Hnil in Hin. inversion Hin.
Qed.

(** ** The listing of [export_structure] *)

Lemma string_append_nil_r (s : string) : String.append s "" = s.
Proof.
  induction s as [| c s IH]; [reflexivity |].
  change (String c (String.append s "") = String c s). f_equal. exact IH.
Qed.

Lemma string_append_assoc (a b c : string) :
  String.append (String.append a b) c = String.append a (String.append b c).
Proof.
  induction a as [| x a IH]; [reflexivity |].
  change (String x (String.append (String.append a b) c)
          = String x (String.append a (String.append b c))).
  f_equal. exact IH.
Qed.

Lemma string_length_append (a b : string) :
  String.length (String.append a b) = (String.length a + String.length b)%nat.
Proof.
  induction a as [| x a IH]; [reflexivity |].
  change (S (String.length (String.append a b))
          = S (String.length a + String.length b)).
  f_equal. exact IH.
Qed.

Section ExportStructureFacts.
Import ExportStructure.

Lemma insert_item_Permutation (x : Entry) (l : list Entry) :
  Permutation (insert_item x l) (x :: l).
Proof.
  induction l as [| y l IH]; cbn; [reflexivity |].
  destruct (key_leb x y); [reflexivity |].
  rewrite IH. apply perm_swap.
Qed.

Lemma sorted_Permutation (l : list Entry) : Permutation (sorted l) l.
Proof.
  induction l as [| x l IH]; cbn; [reflexivity |].
  rewrite insert_item_Permutation. constructor. exact IH.
Qed.

Lemma In_sorted (x : Entry) (l : list Entry) : In x (sorted l) <-> In x l.
Proof. split; apply Permutation_in; [| symmetry]; apply sorted_Permutation. Qed.

Lemma key_leb_le (a b : Entry) : key_leb a b = true <-> key_le a b.
Proof.
  unfold key_leb, key_le.
  destruct (is_file a), (is_file b); cbn; intuition congruence.
Qed.

Lemma key_leb_total (a b : Entry) : key_leb a b = true \/ key_leb b a = true.
Proof.
  unfold key_leb. destruct (is_file a), (is_file b); cbn; auto;
    apply String.leb_total.
Qed.

Lemma key_leb_trans (a b c : Entry) :
  key_leb a b = true -> key_leb b c = true -> key_leb a c = true.
Proof.
  unfold key_leb. destruct (is_file a), (is_file b), (is_file c); cbn; auto;
    try discriminate; apply string_leb_trans.
Qed.

Lemma insert_item_sorted (x : Entry) (l : list Entry) :
  StronglySorted (fun a b => key_leb a b = true) l ->
  StronglySorted (fun a b => key_leb a b = true) (insert_item x l).
Proof.
  induction 1 as [| y l Hs IH Hy]; cbn; [repeat constructor |].
  destruct (key_leb x y) eqn:E.
  - constructor; [constructor; assumption |]. constructor; [exact E |].
    rewrite List.Forall_forall in *. intros z Hz. eapply key_leb_trans; [exact E | auto].
  - constructor; [exact IH |].
    rewrite List.Forall_forall in *. intros z Hz.
    eapply Permutation_in in Hz; [| apply insert_item_Permutation].
    destruct Hz as [<- | Hz]; [| auto].
    destruct (key_leb_total x y) as [H | H]; [congruence | exact H].
Qed.

Lemma sorted_sorted (l : list Entry) : StronglySorted key_le (sorted l).
Proof.
  eapply StronglySorted_impl; [intros a b; apply key_leb_le |].
  induction l as [| x l IH]; cbn; [constructor | apply insert_item_sorted, IH].
Qed.

Lemma In_enumerate_from {X} (l : list X) (start i : nat) (x : X) :
  In (i, x) (combine (seq start (length l)) l) <->
  (start <= i)%nat /\ l !! (i - start)%nat = Some x.
Proof.
  revert start. induction l as [| y l IH]; intros start; cbn [length seq combine In].
  - split; [tauto | intros [_ H]; inversion H].
  - rewrite IH. split.
    + intros [[= <- <-] | [Hle Hl]].
      * rewrite Nat.sub_diag. split; [lia | reflexivity].
      * split; [lia |]. replace (i - start)%nat with (S (i - S start)) by lia. exact Hl.
    + intros [Hle Hl]. destruct (Nat.eq_dec i start) as [-> | Hne].
      * left. rewrite Nat.sub_diag in Hl. cbn in Hl. congruence.
      * right. split; [lia |].
        replace (i - start)%nat with (S (i - S start)) in Hl by lia. exact Hl.
Qed.

Lemma In_enumerate {X} (l : list X) (i : nat) (x : X) :
  In (i, x) (enumerate l) <-> l !! i = Some x.
Proof.
  unfold enumerate. rewrite In_enumerate_from, Nat.sub_0_r.
  split; [tauto | intros H; split; [lia | exact H]].
Qed.

Lemma indented_here (prefix : string) : indented prefix 0 prefix.
Proof.
  exists []. split; [reflexivity |]. split; [constructor |].
  cbn. symmetry. apply string_append_nil_r.
Qed.

Lemma indented_below (prefix ext s : string) (depth : nat) :
  ext = bar \/ ext = blank ->
  indented (String.append prefix ext) depth s -> indented prefix (S depth) s.
Proof.
  intros Hext (pieces & Hlen & Hall & ->). exists (ext :: pieces).
  split; [cbn; rewrite Hlen; reflexivity |]. split; [constructor; assumption |].
  cbn. apply string_append_assoc.
Qed.

Lemma extension_cases (more : bool) :
  (if more then bar else blank) = bar \/ (if more then bar else blank) = blank.
Proof. destruct more; auto. Qed.

(** Every line written is that of a reachable entry. *)
Lemma walk_lines_Listed (levels : nat) (ignore : list string) (path : Entry)
    (prefix : string) (line : Line) :
  In line (walk levels ignore path prefix) ->
  exists depth item,
    (depth < levels)%nat /\ Listed ignore path depth item /\
    l_name line = name item /\ indented prefix depth (l_prefix line) /\
    (l_connector line = tee \/ l_connector line = corner).
Proof.
  revert path prefix line.
  induction levels as [| levels IH]; intros path prefix line; [intros [] |].
  cbn [walk]. intros Hin. apply in_flat_map in Hin.
  destruct Hin as ([i item] & Hitem & Hin).
  apply in_combine_r in Hitem. apply (proj1 (In_sorted _ _)) in Hitem.
  destruct (ignored ignore item) eqn:Hign; [destruct Hin |].
  destruct Hin as [<- | Hin].
  - exists 0%nat, item. cbn [l_name l_prefix l_connector].
    split; [lia |]. split; [apply Listed_here; assumption |]. split; [reflexivity |].
    split; [apply indented_here |].
    destruct (i <? _)%nat; auto.
  - destruct (is_dir item) eqn:Hdir; [| destruct Hin].
    apply IH in Hin. destruct Hin as (depth & item' & Hlt & Hl & Hn & Hi & Hc).
    exists (S depth), item'. split; [lia |].
    split; [eapply Listed_below; eassumption |]. split; [exact Hn |].
    split; [| exact Hc].
    eapply indented_below; [apply extension_cases | exact Hi].
Qed.

(** Every reachable entry within the levels has its line. *)
Lemma Listed_walk_line (ignore : list string) (path : Entry) (depth : nat)
    (item : Entry) :
  Listed ignore path depth item ->
  forall levels prefix, (depth < levels)%nat ->
  exists line,
    In line (walk levels ignore path prefix) /\
    l_name line = name item /\ indented prefix depth (l_prefix line).
Proof.
  induction 1 as [path item Hin Hign | path d depth item Hin Hign Hdir Hl IH];
    intros levels prefix Hlt; (destruct levels as [| levels]; [lia |]).
  - apply (proj2 (In_sorted _ _)) in Hin.
    apply list_elem_of_In, list_elem_of_lookup in Hin.
    destruct Hin as [i Hi]. apply In_enumerate in Hi.
    eexists. split.
    + cbn [walk]. apply in_flat_map. exists (i, item). split; [exact Hi |].
      rewrite Hign. left. reflexivity.
    + cbn. split; [reflexivity | apply indented_here].
  - apply (proj2 (In_sorted _ _)) in Hin.
    apply list_elem_of_In, list_elem_of_lookup in Hin.
    destruct Hin as [i Hi]. apply In_enumerate in Hi.
    destruct (IH levels
                (String.append prefix
                   (if (i <? length (sorted (iterdir path)) - 1)%nat
                    then bar else blank))) as (line & Hline & Hn & Hind); [lia |].
    exists line. split; [| split; [exact Hn |]].
    + cbn [walk]. apply in_flat_map. exists (i, d). split; [exact Hi |].
      rewrite Hign, Hdir. right. exact Hline.
    + eapply indented_below; [apply extension_cases | exact Hind].
Qed.

Lemma walk_prefix_length (levels : nat) (ignore : list string) (path : Entry)
    (prefix : string) (line : Line) :
  In line (walk levels ignore path prefix) ->
  (String.length prefix <= String.length (l_prefix line))%nat.
Proof.
  intros Hin. apply walk_lines_Listed in Hin.
  destruct Hin as (depth & item & _ & _ & _ & (pieces & _ & _ & ->) & _).
  rewrite string_length_append. lia.
Qed.

Lemma Listed_not_ignored (ignore : list string) (path : Entry) (depth : nat)
    (item : Entry) :
  Listed ignore path depth item -> ignored ignore item = false.
Proof. induction 1; assumption. Qed.

Lemma walk_below_prefix (levels : nat) (ignore : list string) (item : Entry)
    (prefix : string) (more : bool) :
  List.filter (fun l => String.eqb (l_prefix l) prefix)
    (walk levels ignore item (String.append prefix (if more then bar else blank)))
  = [].
Proof.
  match goal with |- ?f = [] => destruct f as [| line rest] eqn:Ef end;
    [reflexivity | exfalso].
  assert (Hin : In line (line :: rest)) by (left; reflexivity).
  rewrite <- Ef in Hin. apply filter_In in Hin. destruct Hin as [Hin Heq].
  apply String.eqb_eq in Heq. apply walk_prefix_length in Hin.
  rewrite Heq, string_length_append in Hin.
  destruct more; cbn in Hin; lia.
Qed.

(** The lines written for the entries of the directory itself are
    those of its entries that are not ignored, in sorted order; the
    lines of the levels below have a longer prefix. *)
Lemma walk_level_lines (levels : nat) (ignore : list string) (path : Entry)
    (prefix : string) :
  List.filter (fun l => String.eqb (l_prefix l) prefix)
    (walk (S levels) ignore path prefix)
  = map (fun p => level_line (sorted (iterdir path)) prefix (fst p) (snd p))
      (List.filter (fun p => negb (ignored ignore (snd p)))
         (enumerate (sorted (iterdir path)))).
Proof.
  cbn [walk]. set (items := sorted (iterdir path)).
  generalize (enumerate items). intros l.
  induction l as [| [i item] l IH]; [reflexivity |].
  cbn [flat_map List.filter map fst snd]. rewrite List.filter_app, IH.
  destruct (ignored ignore item); cbn [negb]; [reflexivity |].
  cbn [List.filter l_prefix map app fst snd]. rewrite String.eqb_refl.
  cbn [app]. apply f_equal2; [reflexivity |].
  destruct (is_dir item); [| reflexivity].
  rewrite walk_below_prefix. reflexivity.
Qed.

(** X21. When [export_structure] returns, every line it
    has written is that of an entry reached from the root through
    directories that are not ignored, itself not ignored, at most
    [max_depth] directories below the root, and its prefix has one
    piece of indentation per directory crossed; conversely every such
    entry has its line.  Nothing is written for an entry whose name
    begins with a dot or contains one of the ignored words, nor for
    anything below such a directory. *)
Theorem export_lists_visible (root : Entry) (max_depth : Z) (ignore : list string)
    (out : Output) :
  export_structure root max_depth ignore = Some out ->
  (forall line, In line (lines out) ->
     ignored_name ignore (l_name line) = false /\
     exists depth item,
       Z.of_nat depth <= max_depth /\ Listed ignore root depth item /\
       l_name line = name item /\ indented "" depth (l_prefix line)) /\
  (forall depth item,
     Listed ignore root depth item -> Z.of_nat depth <= max_depth ->
     exists line,
       In line (lines out) /\ l_name line = name item /\
       indented "" depth (l_prefix line)).
Proof.
  unfold export_structure. destruct (0 >? max_depth) eqn:Hneg.
  - intros [= <-]. cbn [lines]. split; [intros line [] |].
    intros depth item _ Hd. apply Z.gtb_lt in Hneg. lia.
  - destruct (is_dir root); [| discriminate]. intros [= <-]. cbn [lines].
    assert (Hpos : 0 <= max_depth).
    { destruct (Z.gtb_spec 0 max_depth); [discriminate | lia]. }
    split.
    + intros line Hin. apply walk_lines_Listed in Hin.
      destruct Hin as (depth & item & Hlt & Hl & Hn & Hi & _).
      split.
      * rewrite Hn. apply (Listed_not_ignored _ _ _ _ Hl).
      * exists depth, item. split; [lia |]. auto.
    + intros depth item Hl Hd. apply (Listed_walk_line _ _ _ _ Hl). lia.
Qed.

Lemma export_lists_visible_witness :
  exists out,
    export_structure project default_max_depth default_ignore = Some out /\
    forall line, In line (lines out) ->
      ignored_name default_ignore (l_name line) = false.
Proof.
  destruct (export_structure project default_max_depth default_ignore) as [out |] eqn:E;
    [| vm_compute in E; discriminate].
  exists out. split; [reflexivity |]. intros line Hin.
  apply (export_lists_visible project default_max_depth default_ignore out E), Hin.
Defined.

Lemma enumerate_visible (ignore : list string) (items : list Entry) :
  map snd (List.filter (fun p : nat * Entry => negb (ignored ignore (snd p)))
             (enumerate items))
  = List.filter (fun item => negb (ignored ignore item)) items.
Proof.
  unfold enumerate. generalize 0%nat.
  induction items as [| item items IH]; intros start; [reflexivity |].
  cbn [length seq combine List.filter snd].
  destruct (negb (ignored ignore item)); cbn [map snd]; rewrite IH; reflexivity.
Qed.

(** X22. At every level of the listing, the lines of the
    entries of one directory (those written with the prefix of that
    level) come in the order of the keys: the entries that are not
    regular files first, then the regular files, each group in
    ascending order of name; they are the entries of the directory that
    are not ignored, each once. *)
Theorem export_level_order (levels : nat) (ignore : list string) (path : Entry)
    (prefix : string) :
  exists shown : list Entry,
    map l_name
      (List.filter (fun l => String.eqb (l_prefix l) prefix)
         (walk (S levels) ignore path prefix))
    = map name shown /\
    Permutation shown
      (List.filter (fun item => negb (ignored ignore item)) (iterdir path)) /\
    StronglySorted key_le shown.
Proof.
  exists (List.filter (fun item => negb (ignored ignore item)) (sorted (iterdir path))).
  split; [| split].
  - rewrite walk_level_lines, map_map. cbn [level_line l_name].
    rewrite <- enumerate_visible, map_map. reflexivity.
  - apply List_filter_Permutation, sorted_Permutation.
  - apply List_filter_sorted, sorted_sorted.
Qed.

Lemma tee_not_corner : tee <> corner.
Proof. discriminate. Qed.

(** X23. At a level of the listing, a line is written with
    the closing connector exactly when the entry that comes last in the
    order of the keys is not ignored (the position is counted among all
    the entries, ignored or not): when the last entry is ignored, every
    line of the level has the branching connector and the branch is
    left open. *)
Theorem export_closing_connector (levels : nat) (ignore : list string) (path : Entry)
    (prefix : string) :
  (exists line,
     In line (walk (S levels) ignore path prefix) /\
     l_prefix line = prefix /\ l_connector line = corner) <->
  (exists item,
     last (sorted (iterdir path)) = Some item /\ ignored ignore item = false).
Proof.
  set (items := sorted (iterdir path)).
  assert (Hlevel : forall line,
            (In line (walk (S levels) ignore path prefix) /\ l_prefix line = prefix) <->
            exists i item,
              items !! i = Some item /\ ignored ignore item = false /\
              line = level_line items prefix i item).
  { intros line.
    rewrite <- (String.eqb_eq (l_prefix line) prefix).
    rewrite <- (filter_In (fun l => String.eqb (l_prefix l) prefix)).
    rewrite walk_level_lines. fold items. rewrite in_map_iff. split.
    - intros ([i item] & <- & Hin). apply filter_In in Hin. destruct Hin as [Hin Hv].
      apply In_enumerate in Hin. apply negb_true_iff in Hv. exists i, item. auto.
    - intros (i & item & Hi & Hv & ->). exists (i, item). split; [reflexivity |].
      apply filter_In. split; [apply In_enumerate, Hi | apply negb_true_iff, Hv]. }
  split.
  - intros (line & Hin & Hp & Hc).
    destruct (proj1 (Hlevel line) (conj Hin Hp)) as (i & item & Hi & Hv & ->).
    exists item. split; [| exact Hv]. rewrite last_lookup.
    assert (Hlt : (i < length items)%nat) by (apply lookup_lt_is_Some; eauto).
    cbn [level_line l_connector] in Hc.
    destruct (i <? length items - 1)%nat eqn:E;
      [exfalso; apply tee_not_corner, Hc |].
    apply Nat.ltb_ge in E. replace (Nat.pred (length items)) with i by lia. exact Hi.
  - intros (item & Hlast & Hv). rewrite last_lookup in Hlast.
    exists (level_line items prefix (Nat.pred (length items)) item).
    assert (Hin := proj2 (Hlevel _)
                     (ex_intro _ _ (ex_intro _ item (conj Hlast (conj Hv eq_refl))))).
    destruct Hin as [Hin Hp]. split; [exact Hin |]. split; [exact Hp |].
    cbn [level_line l_connector].
    assert (E : (Nat.pred (length items) <? length items - 1)%nat = false)
      by (apply Nat.ltb_ge; lia).
    rewrite E. reflexivity.
Qed.
End ExportStructureFacts.
